(** * TollChain hardware integration: a shallow embedding of [hardware/main.py]

    The booth agent is one Python object ([TollChainHardware]) whose methods
    mutate its fields, drive GPIO pins, sleep, and talk to a backend over HTTP
    and over a websocket.  The embedding keeps that shape:

    - the object's fields are a record, [TollChainHardware];
    - the rest of the machine (wall clock, pin levels, the list of observable
      effects in the order and at the time they happen) is a record, [State];
    - everything the program does not control (what the backend answers, what
      the sensors deliver, whether a websocket operation succeeds) is an
      oracle in [Env], indexed by the number of external calls made so far;
    - a method is a function in the monad [M]: it reads the environment,
      threads the state, and either returns or raises a Python exception.

    Time ([time.time()], [time.sleep], [asyncio.sleep]) is rational-valued:
    the clock advances exactly by the duration slept and by the latency the
    environment attributes to a blocking network call; every other statement
    is instantaneous.  The two coroutines ([scan_loop], [websocket_loop]) are
    embedded one at a time; an [asyncio_sleep] marks the places where the
    other one may run.

    Taken from outside the program: a GPIO write succeeds and is recorded
    with its time; UTF-8 decoding is an oracle of the environment; a [str]
    holds code points below 256; a [while self.is_running:] loop is run for a
    bounded number of passes and reports whether it stopped by itself. *)

From Stdlib Require Import ZArith QArith Lqa String Ascii List.
From stdpp Require Import base option list gmap strings.

Import ListNotations.
Open Scope string_scope.

(** ** Python values *)

(** Values that cross the JSON boundary ([response.json()], [json.loads],
    [json.dumps]).  A dict keeps its items in order; keys are unique after
    parsing, so lookup takes the first match. *)
#[local] Unset Elimination Schemes.
Inductive Json : Type :=
| JNull
| JBool (b : bool)
| JNum (q : Q)
| JStr (s : string)
| JArr (items : list Json)
| JObj (fields : list (string * Json)).
#[local] Set Elimination Schemes.

(** String and float literals are written as in the source. *)
Coercion JStr : string >-> Json.
Coercion JNum : Q >-> Json.

(** Python truthiness, as used by [if result.get('registered', False):]. *)
Definition truthy (v : Json) : bool :=
  match v with
  | JNull => false
  | JBool b => b
  | JNum q => negb (Qeq_bool q 0)
  | JStr s => negb (String.eqb s "")
  | JArr items => match items with [] => false | _ => true end
  | JObj fields => match fields with [] => false | _ => true end
  end.

Fixpoint assoc (key : string) (fields : list (string * Json)) : option Json :=
  match fields with
  | [] => None
  | (k, v) :: rest => if String.eqb k key then Some v else assoc key rest
  end.

(** [value == 'literal'] for a string literal on the right. *)
Definition eq_str (v : Json) (lit : string) : bool :=
  match v with
  | JStr s => String.eqb s lit
  | _ => false
  end.

(** Exceptions the program can meet; all of them derive from [Exception]. *)
Inductive Exn : Type :=
| ConnectionClosed        (* websockets.exceptions.ConnectionClosed *)
| WebSocketConnectError   (* websockets.connect failed *)
| RequestsTimeout         (* requests.exceptions.Timeout *)
| RequestsConnectionError (* requests.exceptions.ConnectionError *)
| JSONDecodeError
| AttributeError
| TypeError
| ValueError
| SerialException
| UnicodeDecodeError
| CameraError.

Inductive Res (A : Type) : Type :=
| Ok (a : A)
| Raise (e : Exn).
Arguments Ok {A} a.
Arguments Raise {A} e.

(** ** Configuration *)

Definition LED_GREEN : Z := 18.
Definition LED_RED : Z := 24.
Definition LED_YELLOW : Z := 25.
Definition BUZZER_PIN : Z := 23.

Record Location : Type := { lat : Q; lng : Q }.

(** ** The outside world *)

(** The [scan_data] dict posted to the backend. *)
Record ScanData : Type := {
  vehicleId : string;
  tollBoothId : string;
  location : Location;
  timestamp : Q;
  scanType : string
}.

(** A [requests.Response]: the status code and the parsed body
    ([None] when [response.json()] would raise). *)
Record Response : Type := {
  status_code : Z;
  json_body : option Json
}.

Inductive HttpOutcome : Type :=
| Responded (r : Response)
| TimedOut
| ConnectionFailed.

(** What the backend does with one POST and how long the call blocks. *)
Record HttpReply : Type := {
  elapsed : Q;
  outcome : HttpOutcome
}.

Inductive RecvOutcome : Type :=
| Received (message : option Json)  (* [None]: text that [json.loads] rejects *)
| RecvClosed.

Inductive SerialOutcome : Type :=
| NothingWaiting                  (* in_waiting == 0 *)
| Line (data : list ascii)        (* what readline() returns *)
| SerialFault.                    (* the port raises *)

Inductive CameraOutcome : Type :=
| NoFrame                         (* ret is False *)
| Frame (qr_codes : list (list ascii))  (* pyzbar.decode(frame): the payloads *)
| CameraFault.

(** Oracles for everything outside the process, and the settings read from
    the process environment at import time.  The [nat] index is the number of
    external calls made before this one. *)
Record Env : Type := {
  BACKEND_URL : string;
  WEBSOCKET_URL : string;
  TOLL_BOOTH_ID : string;
  LOCATION : Location;
  RFID_SERIAL_PORT : string;
  QR_CAMERA_INDEX : Z;
  serial_opens : bool;
  camera_opens : bool;
  utf8_decode : list ascii -> option string;
  backend : nat -> ScanData -> HttpReply;
  serial_poll : nat -> SerialOutcome;
  camera_read : nat -> CameraOutcome;
  ws_connect : nat -> bool;
  ws_send : nat -> Json -> bool;
  ws_recv : nat -> Q * RecvOutcome
}.

(** ** The object and the machine state *)

Inductive Serial : Type := serial_Serial (port : string).
Inductive VideoCapture : Type := cv2_VideoCapture (index : Z).
Inductive WebSocket : Type := WebSocketClient (url : string).

Record TollChainHardware : Type := {
  rfid_serial : option Serial;
  camera : option VideoCapture;
  websocket : option WebSocket;
  is_running : bool;
  last_scan_time : gmap string Q;
  scan_cooldown : Q
}.

Inductive LogLevel : Type := INFO | WARNING | ERROR.

Inductive LogArg : Type :=
| NoArg
| ArgStr (s : string)
| ArgExn (e : Exn)
| ArgInt (z : Z).

(** Observable effects. *)
Inductive Event : Type :=
| GpioOutput (pin : Z) (level : bool)
| HttpPost (url : string) (data : ScanData) (timeout : Q)
| WsConnect (url : string)
| WsSend (message : Json)
| WsRecv
| SerialRead
| CameraRead
| Log (level : LogLevel) (text : string) (arg : LogArg).

Record State : Type := {
  self : TollChainHardware;
  clock : Q;
  pins : gmap Z bool;
  calls : nat;
  trace : list (Q * Event)
}.

(** ** The monad of methods *)

Definition M (A : Type) : Type := Env -> State -> Res A * State.

Definition ret {A : Type} (a : A) : M A := fun _ s => (Ok a, s).

Definition bind {A B : Type} (m : M A) (k : A -> M B) : M B :=
  fun E s =>
    match m E s with
    | (Ok a, s') => k a E s'
    | (Raise e, s') => (Raise e, s')
    end.

Declare Scope py_scope.
Delimit Scope py_scope with py.
Notation "x <- m ;; k" := (bind m (fun x => k))
  (at level 100, m at next level, right associativity) : py_scope.
Notation "m ;;; k" := (bind m (fun _ => k))
  (at level 100, right associativity) : py_scope.
Open Scope py_scope.

Definition raise {A : Type} (e : Exn) : M A := fun _ s => (Raise e, s).

(** [try: body  except Exception as e: handler e]. *)
Definition try_except {A : Type} (body : M A) (handler : Exn -> M A) : M A :=
  fun E s =>
    match body E s with
    | (Ok a, s') => (Ok a, s')
    | (Raise e, s') => handler e E s'
    end.

Definition ask : M Env := fun E s => (Ok E, s).
Definition get_self : M TollChainHardware := fun _ s => (Ok (self s), s).

Definition put_self (h : TollChainHardware) : M unit :=
  fun _ s =>
    (Ok tt, {| self := h; clock := clock s; pins := pins s;
               calls := calls s; trace := trace s |}).

(** The index of the next external call. *)
Definition next_call : M nat :=
  fun _ s =>
    (Ok (calls s), {| self := self s; clock := clock s; pins := pins s;
                      calls := S (calls s); trace := trace s |}).

Definition emit (ev : Event) : M unit :=
  fun _ s =>
    (Ok tt, {| self := self s; clock := clock s; pins := pins s;
               calls := calls s; trace := trace s ++ [(clock s, ev)] |}).

Definition advance (d : Q) : M unit :=
  fun _ s =>
    (Ok tt, {| self := self s; clock := (clock s + d)%Q; pins := pins s;
               calls := calls s; trace := trace s |}).

Definition set_pin (pin : Z) (level : bool) : M unit :=
  fun _ s =>
    (Ok tt, {| self := self s; clock := clock s; pins := <[pin := level]> (pins s);
               calls := calls s; trace := trace s |}).

Definition Qltb (x y : Q) : bool := negb (Qle_bool y x).

(** ** Library calls *)

Definition time_time : M Q := fun _ s => (Ok (clock s), s).

(** [time.sleep(secs)]: blocks; rejects what is not a non-negative number.
    A duration beyond what the platform can represent (some 9.2e9 s), which
    [time.sleep] rejects as well, is outside this model: no statement below
    is made about one. *)
Definition time_sleep (secs : Json) : M unit :=
  match secs with
  | JNum q => if Qltb q 0 then raise ValueError else advance q
  | JBool b => advance (if b then 1 else 0)
  | _ => raise TypeError
  end.

(** [await asyncio.sleep(delay)]: the coroutine resumes [delay] later. *)
Definition asyncio_sleep (delay : Q) : M unit :=
  advance (if Qltb delay 0 then 0 else delay).

Definition logger (level : LogLevel) (text : string) (arg : LogArg) : M unit :=
  emit (Log level text arg).

Definition GPIO_output (pin : Z) (level : bool) : M unit :=
  emit (GpioOutput pin level);;; set_pin pin level.

(** [requests.post(url, json=data, timeout=t)]. *)
Definition requests_post (url : string) (data : ScanData) (timeout : Q) : M Response :=
  i <- next_call;;
  E <- ask;;
  emit (HttpPost url data timeout);;;
  advance (elapsed (backend E i data));;;
  match outcome (backend E i data) with
  | Responded r => ret r
  | TimedOut => raise RequestsTimeout
  | ConnectionFailed => raise RequestsConnectionError
  end.

(** [response.json()]. *)
Definition response_json (r : Response) : M Json :=
  match json_body r with
  | Some v => ret v
  | None => raise JSONDecodeError
  end.

(** [d.get(key, default)]; only a dict has [get]. *)
Definition dict_get (d : Json) (key : string) (default : Json) : M Json :=
  match d with
  | JObj fields => ret (match assoc key fields with Some v => v | None => default end)
  | _ => raise AttributeError
  end.

(** [await websocket.send(json.dumps(message))]. *)
Definition websocket_send (ws : WebSocket) (message : Json) : M unit :=
  i <- next_call;;
  E <- ask;;
  if ws_send E i message then emit (WsSend message) else raise ConnectionClosed.

(** [await websockets.connect(url)]. *)
Definition websockets_connect (url : string) : M WebSocket :=
  i <- next_call;;
  E <- ask;;
  emit (WsConnect url);;;
  if ws_connect E i then ret (WebSocketClient url) else raise WebSocketConnectError.

(** [await websocket.recv()]: resumes when a message arrives or the
    connection is found closed. *)
Definition websocket_recv (ws : WebSocket) : M (option Json) :=
  i <- next_call;;
  E <- ask;;
  advance (fst (ws_recv E i));;;
  match snd (ws_recv E i) with
  | Received message => emit WsRecv;;; ret message
  | RecvClosed => raise ConnectionClosed
  end.

(** [json.loads(message)]. *)
Definition json_loads (message : option Json) : M Json :=
  match message with
  | Some v => ret v
  | None => raise JSONDecodeError
  end.

(** [if serial.in_waiting > 0: serial.readline()], as one poll of the port:
    the bytes read, or [None] when nothing is waiting.  The time [readline]
    may block (up to the 1 s timeout of the port, when the bytes waiting hold
    no line end) is not modelled: no statement below says how long a poll
    takes. *)
Definition serial_readline_if_waiting (port : Serial) : M (option (list ascii)) :=
  i <- next_call;;
  E <- ask;;
  emit SerialRead;;;
  match serial_poll E i with
  | NothingWaiting => ret None
  | Line data => ret (Some data)
  | SerialFault => raise SerialException
  end.

(** [camera.read()] followed by [pyzbar.decode(frame)]. *)
Definition camera_read_decode (cam : VideoCapture) : M (option (list (list ascii))) :=
  i <- next_call;;
  E <- ask;;
  emit CameraRead;;;
  match camera_read E i with
  | NoFrame => ret None
  | Frame qr_codes => ret (Some qr_codes)
  | CameraFault => raise CameraError
  end.

(** [bytes.decode('utf-8')]. *)
Definition bytes_decode (raw : list ascii) : M string :=
  E <- ask;;
  match utf8_decode E raw with
  | Some s => ret s
  | None => raise UnicodeDecodeError
  end.

(** [str.isspace] on the characters a [string] can hold (code points below
    256): TAB..CR, FS..US, space, NEL and NBSP. *)
Definition isspace (c : ascii) : bool :=
  let n := N_of_ascii c in
  ((9 <=? n) && (n <=? 13) || (28 <=? n) && (n <=? 32) || (n =? 133) || (n =? 160))%N.

Fixpoint lstrip (l : list ascii) : list ascii :=
  match l with
  | [] => []
  | c :: rest => if isspace c then lstrip rest else l
  end.

Definition rstrip (l : list ascii) : list ascii := rev (lstrip (rev l)).

(** [s.strip()]. *)
Definition strip (s : string) : string :=
  string_of_list_ascii (rstrip (lstrip (list_ascii_of_string s))).

(** [s.replace(c, '')] for a one-character [c]. *)
Definition remove_char (c : ascii) (s : string) : string :=
  string_of_list_ascii
    (List.filter (fun x => negb (Ascii.eqb x c)) (list_ascii_of_string s)).

Definition CR : ascii := ascii_of_nat 13.
Definition LF : ascii := ascii_of_nat 10.

(** Truthiness of a [str]. *)
Definition nonempty (s : string) : bool := negb (String.eqb s "").

(** Truthiness of an [Optional[str]]. *)
Definition present (v : option string) : bool :=
  match v with
  | Some s => nonempty s
  | None => false
  end.

(** ** Field assignments *)

Definition set_rfid_serial (v : option Serial) : M unit :=
  h <- get_self;;
  put_self {| rfid_serial := v; camera := camera h; websocket := websocket h;
              is_running := is_running h; last_scan_time := last_scan_time h;
              scan_cooldown := scan_cooldown h |}.

Definition set_camera (v : option VideoCapture) : M unit :=
  h <- get_self;;
  put_self {| rfid_serial := rfid_serial h; camera := v; websocket := websocket h;
              is_running := is_running h; last_scan_time := last_scan_time h;
              scan_cooldown := scan_cooldown h |}.

Definition set_websocket (v : option WebSocket) : M unit :=
  h <- get_self;;
  put_self {| rfid_serial := rfid_serial h; camera := camera h; websocket := v;
              is_running := is_running h; last_scan_time := last_scan_time h;
              scan_cooldown := scan_cooldown h |}.

Definition set_is_running (v : bool) : M unit :=
  h <- get_self;;
  put_self {| rfid_serial := rfid_serial h; camera := camera h; websocket := websocket h;
              is_running := v; last_scan_time := last_scan_time h;
              scan_cooldown := scan_cooldown h |}.

(** [self.last_scan_time[vehicle_id] = t]. *)
Definition set_last_scan_time (vehicle_id : string) (t : Q) : M unit :=
  h <- get_self;;
  put_self {| rfid_serial := rfid_serial h; camera := camera h; websocket := websocket h;
              is_running := is_running h;
              last_scan_time := <[vehicle_id := t]> (last_scan_time h);
              scan_cooldown := scan_cooldown h |}.

(** ** Methods of [TollChainHardware] *)

Definition setup_gpio : M unit :=
  try_except
    (GPIO_output LED_GREEN false;;;
     GPIO_output LED_RED false;;;
     GPIO_output LED_YELLOW false;;;
     GPIO_output BUZZER_PIN false;;;
     logger INFO "GPIO initialized successfully" NoArg)
    (fun e => logger ERROR "Failed to initialize GPIO: " (ArgExn e)).

Definition setup_rfid_reader : M unit :=
  try_except
    (E <- ask;;
     (if serial_opens E then ret tt else raise SerialException);;;
     set_rfid_serial (Some (serial_Serial (RFID_SERIAL_PORT E)));;;
     logger INFO "RFID reader connected on " (ArgStr (RFID_SERIAL_PORT E)))
    (fun e =>
       logger ERROR "Failed to connect RFID reader: " (ArgExn e);;;
       set_rfid_serial None).

Definition setup_qr_camera : M unit :=
  try_except
    (E <- ask;;
     set_camera (Some (cv2_VideoCapture (QR_CAMERA_INDEX E)));;;
     (if camera_opens E then ret tt else raise CameraError);;;
     logger INFO "QR camera initialized on index " (ArgInt (QR_CAMERA_INDEX E)))
    (fun e =>
       logger ERROR "Failed to initialize camera: " (ArgExn e);;;
       set_camera None).

(** The fields as [__init__] leaves them before the setup calls. *)
Definition fresh_object : TollChainHardware :=
  {| rfid_serial := None; camera := None; websocket := None;
     is_running := false; last_scan_time := ∅; scan_cooldown := 5 |}.

Definition init : M unit :=
  put_self fresh_object;;;
  setup_gpio;;;
  setup_rfid_reader;;;
  setup_qr_camera.

Definition location_json (l : Location) : Json :=
  JObj [("lat", JNum (lat l)); ("lng", JNum (lng l))].

Definition send_hardware_status : M unit :=
  h <- get_self;;
  match websocket h with
  | None => ret tt
  | Some ws =>
    try_except
      (E <- ask;;
       now <- time_time;;
       let status :=
         JObj [("type", JStr "hardware_status");
               ("tollBoothId", JStr (TOLL_BOOTH_ID E));
               ("status", JStr "active");
               ("location", location_json (LOCATION E));
               ("timestamp", JNum now);
               ("hardware",
                JObj [("rfid", JBool (bool_decide (rfid_serial h <> None)));
                      ("camera", JBool (bool_decide (camera h <> None)));
                      ("gpio", JBool true)])] in
       websocket_send ws status;;;
       logger INFO "Hardware status sent to backend" NoArg)
      (fun e => logger ERROR "Failed to send hardware status: " (ArgExn e))
  end.

Definition connect_websocket : M unit :=
  try_except
    (E <- ask;;
     ws <- websockets_connect (WEBSOCKET_URL E);;
     set_websocket (Some ws);;;
     logger INFO "Connected to backend WebSocket" NoArg;;;
     send_hardware_status)
    (fun e =>
       logger ERROR "Failed to connect to WebSocket: " (ArgExn e);;;
       set_websocket None).

Definition read_rfid : M (option string) :=
  h <- get_self;;
  match rfid_serial h with
  | None => ret None
  | Some port =>
    try_except
      (waiting <- serial_readline_if_waiting port;;
       match waiting with
       | None => ret None
       | Some raw =>
         decoded <- bytes_decode raw;;
         let data := strip decoded in
         if nonempty data && (0 <? String.length data)%nat
         then
           let vehicle_id := remove_char LF (remove_char CR data) in
           logger INFO "RFID read: " (ArgStr vehicle_id);;;
           ret (Some vehicle_id)
         else ret None
       end)
      (fun e => logger ERROR "Error reading RFID: " (ArgExn e);;; ret None)
  end.

Definition scan_qr_code : M (option string) :=
  h <- get_self;;
  match camera h with
  | None => ret None
  | Some cam =>
    try_except
      (decoded <- camera_read_decode cam;;
       match decoded with
       | None => ret None
       | Some [] => ret None
       | Some (qr_code :: _) =>
         vehicle_id <- bytes_decode qr_code;;
         logger INFO "QR code scanned: " (ArgStr vehicle_id);;;
         ret (Some vehicle_id)
       end)
      (fun e => logger ERROR "Error scanning QR code: " (ArgExn e);;; ret None)
  end.

Definition set_status_led (color : Json) (state : bool) : M unit :=
  try_except
    (if eq_str color "green" then GPIO_output LED_GREEN state
     else if eq_str color "red" then GPIO_output LED_RED state
     else if eq_str color "yellow" then GPIO_output LED_YELLOW state
     else ret tt)
    (fun e => logger ERROR "Error setting LED: " (ArgExn e)).

Definition buzz (duration : Json) : M unit :=
  try_except
    (GPIO_output BUZZER_PIN true;;;
     time_sleep duration;;;
     GPIO_output BUZZER_PIN false)
    (fun e => logger ERROR "Error activating buzzer: " (ArgExn e)).

(** Lines 215-216: the identifier was accepted less than [scan_cooldown]
    ago. *)
Definition cooldown_active (h : TollChainHardware) (vehicle_id : string)
    (current_time : Q) : bool :=
  match last_scan_time h !! vehicle_id with
  | Some last => Qltb (current_time - last) (scan_cooldown h)
  | None => false
  end.

Definition vehicle_detected (vehicle_id : string) (current_time : Q) : Json :=
  JObj [("type", JStr "vehicle_detected");
        ("vehicleId", JStr vehicle_id);
        ("registered", JBool true);
        ("timestamp", JNum current_time)].

Definition unregistered_vehicle (vehicle_id : string) (current_time : Q) : Json :=
  JObj [("type", JStr "unregistered_vehicle");
        ("vehicleId", JStr vehicle_id);
        ("timestamp", JNum current_time)].

(** Lines 224-230: the [scan_data] dict. *)
Definition scan_data (E : Env) (h : TollChainHardware) (vehicle_id : string)
    (current_time : Q) : ScanData :=
  {| vehicleId := vehicle_id;
     tollBoothId := TOLL_BOOTH_ID E;
     location := LOCATION E;
     timestamp := current_time;
     scanType := match rfid_serial h with Some _ => "rfid" | None => "qr" end |}.

Definition scan_url (E : Env) : string :=
  (BACKEND_URL E ++ "/api/hardware/scan")%string.

(** The [try] block of [process_vehicle_scan] (lines 223-279). *)
Definition report_scan (vehicle_id : string) (current_time : Q) : M unit :=
  E <- ask;;
  h <- get_self;;
  response <- requests_post (scan_url E) (scan_data E h vehicle_id current_time) 5;;
  if (status_code response =? 200)%Z
  then
    result <- response_json response;;
    registered <- dict_get result "registered" (JBool false);;
    (if truthy registered
     then
       set_status_led "green" true;;;
       buzz (3 # 10);;;
       logger INFO "Registered vehicle detected: " (ArgStr vehicle_id);;;
       h <- get_self;;
       match websocket h with
       | Some ws => websocket_send ws (vehicle_detected vehicle_id current_time)
       | None => ret tt
       end
     else
       set_status_led "red" true;;;
       buzz (JNum 1);;;
       logger WARNING "Unregistered vehicle detected: " (ArgStr vehicle_id);;;
       h <- get_self;;
       match websocket h with
       | Some ws => websocket_send ws (unregistered_vehicle vehicle_id current_time)
       | None => ret tt
       end);;;
    asyncio_sleep 2;;;
    set_status_led "green" false;;;
    set_status_led "red" false
  else
    set_status_led "yellow" true;;;
    logger ERROR "Backend error: " (ArgInt (status_code response));;;
    asyncio_sleep 1;;;
    set_status_led "yellow" false.

Definition process_vehicle_scan (vehicle_id : string) : M unit :=
  current_time <- time_time;;
  h <- get_self;;
  if cooldown_active h vehicle_id current_time
  then logger INFO "Scan cooldown active for " (ArgStr vehicle_id)
  else
    set_last_scan_time vehicle_id current_time;;;
    try_except
      (report_scan vehicle_id current_time)
      (fun e =>
         logger ERROR "Error processing vehicle scan: " (ArgExn e);;;
         set_status_led "red" true;;;
         asyncio_sleep 1;;;
         set_status_led "red" false).

(** One pass through the body of [while self.is_running:] in [scan_loop]. *)
Definition scan_cycle : M unit :=
  try_except
    (vehicle_id <- read_rfid;;
     h <- get_self;;
     vehicle_id <- (if negb (present vehicle_id) && bool_decide (camera h <> None)
                    then scan_qr_code
                    else ret vehicle_id);;
     match vehicle_id with
     | Some v => if nonempty v then process_vehicle_scan v else ret tt
     | None => ret tt
     end;;;
     asyncio_sleep (1 # 10))
    (fun e =>
       logger ERROR "Error in scan loop: " (ArgExn e);;;
       asyncio_sleep 1).

(** Why a bounded run of a [while self.is_running:] loop came to an end. *)
Inductive LoopExit : Type :=
| Stopped      (* the loop condition was found false *)
| StillLooping (* the bound on the number of passes was reached *).

Fixpoint while_running (passes : nat) (body : M unit) : M LoopExit :=
  match passes with
  | O => ret StillLooping
  | S n =>
    h <- get_self;;
    if is_running h then body;;; while_running n body else ret Stopped
  end.

Definition scan_loop (passes : nat) : M LoopExit :=
  logger INFO "Starting vehicle scanning loop" NoArg;;;
  while_running passes scan_cycle.

Definition handle_hardware_command (command : Json) : M unit :=
  command_type <- dict_get command "command" JNull;;
  if eq_str command_type "test_led"
  then
    color <- dict_get command "color" (JStr "green");;
    set_status_led color true;;;
    asyncio_sleep 1;;;
    set_status_led color false
  else if eq_str command_type "test_buzzer"
  then
    duration <- dict_get command "duration" (JNum (1 # 2));;
    buzz duration
  else if eq_str command_type "status_request"
  then send_hardware_status
  else ret tt.

(** One pass through the body of [while self.is_running:] in
    [websocket_loop]; the first handler is for [ConnectionClosed], the second
    for any other [Exception]. *)
Definition websocket_cycle : M unit :=
  try_except
    (h <- get_self;;
     match websocket h with
     | None =>
       connect_websocket;;;
       asyncio_sleep 5
     | Some ws =>
       message <- websocket_recv ws;;
       data <- json_loads message;;
       type <- dict_get data "type" JNull;;
       if eq_str type "hardware_command"
       then handle_hardware_command data
       else ret tt
     end)
    (fun e =>
       match e with
       | ConnectionClosed =>
         logger WARNING "WebSocket connection closed, reconnecting..." NoArg;;;
         set_websocket None;;;
         asyncio_sleep 5
       | _ =>
         logger ERROR "Error in WebSocket loop: " (ArgExn e);;;
         asyncio_sleep 1
       end).

Definition websocket_loop (passes : nat) : M LoopExit :=
  while_running passes websocket_cycle.

(** [ChannelState] as the program keeps it: the channel counts as connected
    exactly while [self.websocket] holds a connection. *)
Inductive ChannelState : Type := Disconnected | Connected.

Definition channel_state (h : TollChainHardware) : ChannelState :=
  match websocket h with
  | Some _ => Connected
  | None => Disconnected
  end.

(** ** Observations on a run *)

Open Scope list_scope.

(** What a run from [s] to [s'] added to the trace. *)
Definition new_events (s s' : State) : list (Q * Event) :=
  drop (length (trace s)) (trace s').

(** The level changes of one pin, with their times. *)
Fixpoint gpio_history (pin : Z) (tr : list (Q * Event)) : list (Q * bool) :=
  match tr with
  | [] => []
  | (t, GpioOutput p level) :: rest =>
    if (p =? pin)%Z then (t, level) :: gpio_history pin rest
    else gpio_history pin rest
  | _ :: rest => gpio_history pin rest
  end.

(** The messages put on the event channel. *)
Fixpoint sent_messages (tr : list (Q * Event)) : list (Q * Json) :=
  match tr with
  | [] => []
  | (t, WsSend message) :: rest => (t, message) :: sent_messages rest
  | _ :: rest => sent_messages rest
  end.

(** The scans reported to the backend. *)
Fixpoint posts (tr : list (Q * Event)) : list (Q * ScanData) :=
  match tr with
  | [] => []
  | (t, HttpPost _ data _) :: rest => (t, data) :: posts rest
  | _ :: rest => posts rest
  end.

(** The sensor polls, in order: [true] for the RFID port, [false] for the
    camera. *)
Fixpoint polls (tr : list (Q * Event)) : list bool :=
  match tr with
  | [] => []
  | (_, SerialRead) :: rest => true :: polls rest
  | (_, CameraRead) :: rest => false :: polls rest
  | _ :: rest => polls rest
  end.

(** The lines logged at level ERROR. *)
Fixpoint error_logs (tr : list (Q * Event)) : list (Q * string) :=
  match tr with
  | [] => []
  | (t, Log ERROR text _) :: rest => (t, text) :: error_logs rest
  | _ :: rest => error_logs rest
  end.

(** The ["type"] field of a message on the event channel. *)
Definition message_type (m : Json) : option Json :=
  match m with
  | JObj fields => assoc "type" fields
  | _ => None
  end.

(** [self] after [self.last_scan_time[X] = t]. *)
Definition seen (X : string) (t : Q) (h : TollChainHardware) : TollChainHardware :=
  {| rfid_serial := rfid_serial h; camera := camera h; websocket := websocket h;
     is_running := is_running h;
     last_scan_time := <[X := t]> (last_scan_time h);
     scan_cooldown := scan_cooldown h |}.

(** The backend could not be reached: no answer in time, or no connection. *)
Definition unreachable (o : HttpOutcome) : bool :=
  match o with
  | Responded _ => false
  | TimedOut | ConnectionFailed => true
  end.

Definition exn_of_unreachable (o : HttpOutcome) : Exn :=
  match o with
  | ConnectionFailed => RequestsConnectionError
  | _ => RequestsTimeout
  end.

(** The reply the backend gives to the scan of [vehicle_id] started in [s]. *)
Definition reply_to (E : Env) (s : State) (vehicle_id : string) : HttpReply :=
  backend E (calls s) (scan_data E (self s) vehicle_id (clock s)).

(** The outcome of the deduplication check of lines 213-220, read off a run
    of [process_vehicle_scan] from [s]: the scan is processed when the
    identifier's last-seen time becomes the time of the call and the scan is
    posted to the backend first thing; it is suppressed when the call returns
    with the object untouched and nothing posted. *)
Definition processed (E : Env) (X : string) (s : State) : Prop :=
  let s' := (process_vehicle_scan X E s).2 in
  last_scan_time (self s') !! X = Some (clock s) /\
  head (posts (new_events s s')) = Some (clock s, scan_data E (self s) X (clock s)).

Definition suppressed (E : Env) (X : string) (s : State) : Prop :=
  (process_vehicle_scan X E s).1 = Ok tt /\
  self (process_vehicle_scan X E s).2 = self s /\
  posts (new_events s (process_vehicle_scan X E s).2) = [].

(** Preservation: every run of [m] relates the state before to the state
    after. *)
Definition keeps (R : relation State) {A : Type} (m : M A) : Prop :=
  forall E s, R s (m E s).2.

(** The object is left alone and the trace only gets longer. *)
Definition grows (s s' : State) : Prop :=
  self s' = self s /\ exists l, trace s' = trace s ++ l.

(** The run only adds events that satisfy [ok]. *)
Definition adds_only (ok : Event -> Prop) (s s' : State) : Prop :=
  exists l, trace s' = trace s ++ l /\ Forall (fun te => ok te.2) l.

Definition no_poll (ev : Event) : Prop :=
  match ev with
  | SerialRead | CameraRead => False
  | _ => True
  end.

Definition reports_only (id : string) (ev : Event) : Prop :=
  match ev with
  | SerialRead | CameraRead => False
  | HttpPost _ d _ => vehicleId d = id
  | _ => True
  end.

(** The loop flag is left as it was. *)
Definition same_running (s s' : State) : Prop :=
  is_running (self s') = is_running (self s).

(** The method returns normally from every state. *)
Definition total {A : Type} (m : M A) : Prop :=
  forall E s, exists a, (m E s).1 = Ok a.


(** ** Vocabulary for further properties *)

(** Lines 193-198: the pin behind a colour name. *)
Definition led_pin (color : Json) : option Z :=
  if eq_str color "green" then Some LED_GREEN
  else if eq_str color "red" then Some LED_RED
  else if eq_str color "yellow" then Some LED_YELLOW
  else None.

(** A duration [time.sleep] rejects. *)
Definition bad_duration (d : Json) : Prop :=
  match d with
  | JNum q => (q < 0)%Q
  | JBool _ => False
  | _ => True
  end.

(** [d.get(key, default)] on the fields of a dict. *)
Definition get_or (fields : list (string * Json)) (key : string) (default : Json) : Json :=
  match assoc key fields with
  | Some v => v
  | None => default
  end.

(** An entry of the ["hardware"] dict of a status payload. *)
Definition hardware_flag (m : Json) (key : string) : option Json :=
  match m with
  | JObj fields =>
    match assoc "hardware" fields with
    | Some (JObj flags) => assoc key flags
    | _ => None
    end
  | _ => None
  end.

(** A JSON value that is a dict. *)
Definition is_dict (v : Json) : bool :=
  match v with
  | JObj _ => true
  | _ => false
  end.

(** The handles, the flag and the cooldown are as before, and no identifier
    has been forgotten. *)
Definition settings_kept (s s' : State) : Prop :=
  rfid_serial (self s') = rfid_serial (self s) /\
  camera (self s') = camera (self s) /\
  websocket (self s') = websocket (self s) /\
  is_running (self s') = is_running (self s) /\
  scan_cooldown (self s') = scan_cooldown (self s) /\
  dom (last_scan_time (self s)) ⊆ dom (last_scan_time (self s')).

(** Every identifier but [X] has the last-seen time it had. *)
Definition others_kept (X : string) (s s' : State) : Prop :=
  forall Y, Y <> X ->
    last_scan_time (self s') !! Y = last_scan_time (self s) !! Y.

(** What the scan loop may add to the trace: no channel connection or
    receive, reports with the 5-unit timeout and a scan type of the two, and
    on the channel only the two vehicle notifications. *)
Definition scan_side (ev : Event) : Prop :=
  match ev with
  | WsConnect _ | WsRecv => False
  | HttpPost _ d t => t = 5%Q /\ (scanType d = "rfid" \/ scanType d = "qr")
  | WsSend m =>
    message_type m = Some (JStr "vehicle_detected") \/
    message_type m = Some (JStr "unregistered_vehicle")
  | _ => True
  end.

(** What the channel loop may add to the trace: no report to the backend, no
    sensor poll, and on the channel only the status payload. *)
Definition channel_side (ev : Event) : Prop :=
  match ev with
  | HttpPost _ _ _ | SerialRead | CameraRead => False
  | WsSend m => message_type m = Some (JStr "hardware_status")
  | _ => True
  end.

(** Lines 155 and 159: what [read_rfid] makes of a decoded line. *)
Definition cleaned (decoded : string) : string :=
  remove_char LF (remove_char CR (strip decoded)).

(** The index of the camera read of a cycle started in [s]: the call after
    the poll of the port, when there is a port. *)
Definition camera_call (s : State) : nat :=
  match rfid_serial (self s) with
  | Some _ => S (calls s)
  | None => calls s
  end.

(** ** A concrete booth

    The settings are the defaults of the source; the oracles are constant,
    which is all the worked examples below need. *)

(** Agrees with UTF-8 on ASCII input and rejects everything else. *)
Definition decode_ascii (raw : list ascii) : option string :=
  if forallb (fun c => (N_of_ascii c <? 128)%N) raw
  then Some (string_of_list_ascii raw)
  else None.

Definition booth_env (reply : HttpReply) (serial : SerialOutcome)
    (cam : CameraOutcome) (send_ok : bool) (recv : Q * RecvOutcome) : Env :=
  {| BACKEND_URL := "http://localhost:3001";
     WEBSOCKET_URL := "ws://localhost:3001";
     TOLL_BOOTH_ID := "TB001";
     LOCATION := {| lat := 129716 # 10000; lng := 775946 # 10000 |};
     RFID_SERIAL_PORT := "/dev/ttyUSB0";
     QR_CAMERA_INDEX := 0;
     serial_opens := true;
     camera_opens := true;
     utf8_decode := decode_ascii;
     backend := fun _ _ => reply;
     serial_poll := fun _ => serial;
     camera_read := fun _ => cam;
     ws_connect := fun _ => true;
     ws_send := fun _ _ => send_ok;
     ws_recv := fun _ => recv |}.

(** The same environment with another backend. *)
Definition with_backend (f : nat -> ScanData -> HttpReply) (E : Env) : Env :=
  {| BACKEND_URL := BACKEND_URL E;
     WEBSOCKET_URL := WEBSOCKET_URL E;
     TOLL_BOOTH_ID := TOLL_BOOTH_ID E;
     LOCATION := LOCATION E;
     RFID_SERIAL_PORT := RFID_SERIAL_PORT E;
     QR_CAMERA_INDEX := QR_CAMERA_INDEX E;
     serial_opens := serial_opens E;
     camera_opens := camera_opens E;
     utf8_decode := utf8_decode E;
     backend := f;
     serial_poll := serial_poll E;
     camera_read := camera_read E;
     ws_connect := ws_connect E;
     ws_send := ws_send E;
     ws_recv := ws_recv E |}.

Definition answers (status : Z) (body : option Json) : HttpReply :=
  {| elapsed := 0;
     outcome := Responded {| status_code := status; json_body := body |} |}.

Definition times_out : HttpReply := {| elapsed := 5; outcome := TimedOut |}.

Definition verdict (registered : bool) : Json :=
  JObj [("registered", JBool registered)].

(** The machine at time 0, before [TollChainHardware()] is constructed. *)
Definition power_on : State :=
  {| self := fresh_object; clock := 0; pins := ∅; calls := 0; trace := [] |}.

(** The booth after [__init__] found both sensors and [start] set
    [is_running]. *)
Definition booth : State :=
  {| self := {| rfid_serial := Some (serial_Serial "/dev/ttyUSB0");
                camera := Some (cv2_VideoCapture 0);
                websocket := None;
                is_running := true;
                last_scan_time := ∅;
                scan_cooldown := 5 |};
     clock := 0;
     pins := ∅;
     calls := 0;
     trace := [] |}.

(** The same booth with the event channel up. *)
Definition booth_online : State :=
  {| self := {| rfid_serial := Some (serial_Serial "/dev/ttyUSB0");
                camera := Some (cv2_VideoCapture 0);
                websocket := Some (WebSocketClient "ws://localhost:3001");
                is_running := true;
                last_scan_time := ∅;
                scan_cooldown := 5 |};
     clock := 0;
     pins := ∅;
     calls := 0;
     trace := [] |}.

(** The peer closes the channel as soon as it is read. *)
Definition hangs_up : Q * RecvOutcome := (0%Q, RecvClosed).

(** A booth whose reader could not be opened. *)
Definition booth_camera_only : State :=
  {| self := {| rfid_serial := None;
                camera := Some (cv2_VideoCapture 0);
                websocket := None;
                is_running := true;
                last_scan_time := ∅;
                scan_cooldown := 5 |};
     clock := 0;
     pins := ∅;
     calls := 0;
     trace := [] |}.

(** Time passing with nothing happening. *)
Definition idle (d : Q) (s : State) : State :=
  {| self := self s; clock := (clock s + d)%Q; pins := pins s;
     calls := calls s; trace := trace s |}.

Definition tag (s : string) : SerialOutcome :=
  Line (list_ascii_of_string s ++ [LF]).

Definition qr (s : string) : CameraOutcome :=
  Frame [list_ascii_of_string s].

(** ** Basic facts *)

Lemma new_events_app (s s' : State) (l : list (Q * Event)) :
  trace s' = trace s ++ l -> new_events s s' = l.
Proof.
  intros H. unfold new_events. rewrite H. apply drop_app_length.
Qed.

Lemma Qltb_lt (x y : Q) : Qltb x y = true <-> (x < y)%Q.
Proof.
  unfold Qltb. rewrite negb_true_iff. split.
  - intros H. apply Qnot_le_lt. intros Hle. apply Qle_bool_iff in Hle. congruence.
  - intros H. destruct (Qle_bool y x) eqn:Hb; [| reflexivity].
    apply Qle_bool_iff in Hb. exfalso. apply (Qlt_not_le _ _ H Hb).
Qed.

Lemma Qltb_ge (x y : Q) : Qltb x y = false <-> (y <= x)%Q.
Proof.
  unfold Qltb. rewrite negb_false_iff. apply Qle_bool_iff.
Qed.

(** The worked examples start from what [__init__] and [start] build. *)
Lemma booth_after_init :
  let E := booth_env times_out NothingWaiting NoFrame true hangs_up in
  self (bind init (fun _ => set_is_running true) E power_on).2 = self booth.
Proof. vm_compute. reflexivity. Qed.

Lemma asyncio_sleep_nonneg (d : Q) :
  (0 <= d)%Q -> asyncio_sleep d = advance d.
Proof.
  intros H. unfold asyncio_sleep. apply Qltb_ge in H. now rewrite H.
Qed.

Lemma time_sleep_nonneg (d : Q) :
  (0 <= d)%Q -> time_sleep (JNum d) = advance d.
Proof.
  intros H. unfold time_sleep. apply Qltb_ge in H. now rewrite H.
Qed.

(** The colour literals select their pin. *)
Lemma set_status_led_green (b : bool) :
  set_status_led "green" b =
  try_except (GPIO_output LED_GREEN b)
    (fun e => logger ERROR "Error setting LED: " (ArgExn e)).
Proof. reflexivity. Qed.

Lemma set_status_led_red (b : bool) :
  set_status_led "red" b =
  try_except (GPIO_output LED_RED b)
    (fun e => logger ERROR "Error setting LED: " (ArgExn e)).
Proof. reflexivity. Qed.

Lemma set_status_led_yellow (b : bool) :
  set_status_led "yellow" b =
  try_except (GPIO_output LED_YELLOW b)
    (fun e => logger ERROR "Error setting LED: " (ArgExn e)).
Proof. reflexivity. Qed.

(** Unfold the straight-line part of a method down to the state it
    produces. *)
Ltac run :=
  cbv [process_vehicle_scan report_scan requests_post set_last_scan_time
       set_websocket set_rfid_serial set_camera
       bind ret raise try_except ask get_self put_self next_call emit advance
       set_pin time_time logger GPIO_output response_json dict_get
       websocket_send websockets_connect websocket_recv json_loads
       serial_readline_if_waiting camera_read_decode bytes_decode buzz];
  cbn [self clock pins calls trace rfid_serial camera websocket is_running
       last_scan_time scan_cooldown fst snd].

Ltac literals :=
  rewrite ?set_status_led_green, ?set_status_led_red, ?set_status_led_yellow,
    ?(asyncio_sleep_nonneg 1), ?(asyncio_sleep_nonneg 2),
    ?(asyncio_sleep_nonneg 5), ?(asyncio_sleep_nonneg (1 # 10)),
    ?(time_sleep_nonneg (3 # 10)), ?(time_sleep_nonneg 1)
    by (unfold Qle; simpl; lia).

Ltac trace_eq :=
  apply new_events_app; cbn [trace]; rewrite <- ?app_assoc; reflexivity.

(** ** Preservation through the structure of a method *)

Section Keeps.
Context (R : relation State) `{!PreOrder R}.

Lemma keeps_ret {A : Type} (a : A) : keeps R (ret a).
Proof. intros E s. reflexivity. Qed.

Lemma keeps_raise {A : Type} (e : Exn) : keeps R (@raise A e).
Proof. intros E s. reflexivity. Qed.

Lemma keeps_ask : keeps R ask.
Proof. intros E s. reflexivity. Qed.

Lemma keeps_get_self : keeps R get_self.
Proof. intros E s. reflexivity. Qed.

Lemma keeps_time_time : keeps R time_time.
Proof. intros E s. reflexivity. Qed.

Lemma bind_after {A B : Type} (m : M A) (k : A -> M B) (E : Env) (s : State) :
  (forall a, keeps R (k a)) -> R (m E s).2 (bind m k E s).2.
Proof.
  intros Hk. unfold bind.
  destruct (m E s) as [[a | e] s1]; cbn; [apply Hk | reflexivity].
Qed.

Lemma try_after {A : Type} (m : M A) (h : Exn -> M A) (E : Env) (s : State) :
  (forall e, keeps R (h e)) -> R (m E s).2 (try_except m h E s).2.
Proof.
  intros Hh. unfold try_except.
  destruct (m E s) as [[a | e] s1]; cbn; [reflexivity | apply Hh].
Qed.

Lemma keeps_bind {A B : Type} (m : M A) (k : A -> M B) :
  keeps R m -> (forall a, keeps R (k a)) -> keeps R (bind m k).
Proof.
  intros Hm Hk E s. etransitivity; [apply Hm | now apply bind_after].
Qed.

Lemma keeps_try_except {A : Type} (m : M A) (h : Exn -> M A) :
  keeps R m -> (forall e, keeps R (h e)) -> keeps R (try_except m h).
Proof.
  intros Hm Hh E s. etransitivity; [apply Hm | now apply try_after].
Qed.
End Keeps.

Ltac head_of t :=
  lazymatch t with
  | ?f _ => head_of f
  | _ => t
  end.

(** Follow the structure of a method (sequencing, handlers, branches, calls
    of other methods) and leave the state-changing primitives to [prim]. *)
Ltac keeps_walk prim :=
  repeat
    (lazymatch goal with
     | |- keeps _ (ret _) => apply keeps_ret; exact _
     | |- keeps _ (raise _) => apply keeps_raise; exact _
     | |- keeps _ ask => apply keeps_ask; exact _
     | |- keeps _ get_self => apply keeps_get_self; exact _
     | |- keeps _ time_time => apply keeps_time_time; exact _
     | |- keeps _ (bind _ _) => apply keeps_bind; [exact _ | | intros ?]
     | |- keeps _ (try_except _ _) =>
       apply keeps_try_except; [exact _ | | intros ?]
     | |- keeps _ (if ?b then _ else _) => destruct b
     | |- keeps _ (match ?x with _ => _ end) => destruct x
     | |- keeps _ ?m => first [ prim | let h := head_of m in unfold h ]
     end).

#[local] Instance grows_preorder : PreOrder grows.
Proof.
  split.
  - intros s. split; [reflexivity | exists []; now rewrite app_nil_r].
  - intros s1 s2 s3 [H1 [l1 T1]] [H2 [l2 T2]]. split; [congruence |].
    exists (l1 ++ l2). now rewrite T2, T1, app_assoc.
Qed.

Lemma grows_emit (ev : Event) : keeps grows (emit ev).
Proof. intros E s. split; [reflexivity | eexists; reflexivity]. Qed.

Lemma grows_advance (d : Q) : keeps grows (advance d).
Proof. intros E s. split; [reflexivity | exists []; cbn; now rewrite app_nil_r]. Qed.

Lemma grows_set_pin (p : Z) (b : bool) : keeps grows (set_pin p b).
Proof. intros E s. split; [reflexivity | exists []; cbn; now rewrite app_nil_r]. Qed.

Lemma grows_next_call : keeps grows next_call.
Proof. intros E s. split; [reflexivity | exists []; cbn; now rewrite app_nil_r]. Qed.

Ltac grows_prim :=
  first [ apply grows_emit | apply grows_advance | apply grows_set_pin
        | apply grows_next_call ].

Lemma bind_ask {A : Type} (f : Env -> M A) (E : Env) (s : State) :
  bind ask f E s = f E E s.
Proof. reflexivity. Qed.

Lemma bind_get_self {A : Type} (f : TollChainHardware -> M A) (E : Env) (s : State) :
  bind get_self f E s = f (self s) E s.
Proof. reflexivity. Qed.

Lemma bind_time_time {A : Type} (f : Q -> M A) (E : Env) (s : State) :
  bind time_time f E s = f (clock s) E s.
Proof. reflexivity. Qed.

(** The state right after the POST has been issued and answered. *)
Lemma requests_post_state (url : string) (d : ScanData) (t : Q) (E : Env) (s : State) :
  (requests_post url d t E s).2 =
  {| self := self s;
     clock := (clock s + elapsed (backend E (calls s) d))%Q;
     pins := pins s;
     calls := S (calls s);
     trace := trace s ++ [(clock s, HttpPost url d t)] |}.
Proof.
  unfold requests_post. run. now destruct (outcome _).
Qed.

(** ** The deduplication gate *)

Lemma scan_suppressed (E : Env) (s : State) (X : string) :
  cooldown_active (self s) X (clock s) = true ->
  process_vehicle_scan X E s =
  (Ok tt,
   {| self := self s; clock := clock s; pins := pins s; calls := calls s;
      trace := trace s ++
               [(clock s, Log INFO "Scan cooldown active for " (ArgStr X))] |}).
Proof.
  intros H. unfold process_vehicle_scan. run. now rewrite H.
Qed.

Lemma scan_accepted (E : Env) (s : State) (X : string) :
  cooldown_active (self s) X (clock s) = false ->
  let s' := (process_vehicle_scan X E s).2 in
  self s' =
    {| rfid_serial := rfid_serial (self s); camera := camera (self s);
       websocket := websocket (self s); is_running := is_running (self s);
       last_scan_time := <[X := clock s]> (last_scan_time (self s));
       scan_cooldown := scan_cooldown (self s) |} /\
  exists l,
    new_events s s' =
    (clock s, HttpPost (scan_url E) (scan_data E (self s) X (clock s)) 5) :: l.
Proof.
  intros H s'. subst s'.
  set (s1 := {| self :=
                  {| rfid_serial := rfid_serial (self s); camera := camera (self s);
                     websocket := websocket (self s);
                     is_running := is_running (self s);
                     last_scan_time := <[X := clock s]> (last_scan_time (self s));
                     scan_cooldown := scan_cooldown (self s) |};
                clock := clock s; pins := pins s; calls := calls s;
                trace := trace s |}).
  assert (Hrun : process_vehicle_scan X E s =
                 try_except (report_scan X (clock s))
                   (fun e =>
                      logger ERROR "Error processing vehicle scan: " (ArgExn e);;;
                      set_status_led "red" true;;;
                      asyncio_sleep 1;;;
                      set_status_led "red" false) E s1).
  { unfold process_vehicle_scan.
    rewrite bind_time_time, bind_get_self, H. reflexivity. }
  rewrite Hrun.
  assert (Htail : grows (report_scan X (clock s) E s1).2
                    (try_except (report_scan X (clock s))
                       (fun e =>
                          logger ERROR "Error processing vehicle scan: " (ArgExn e);;;
                          set_status_led "red" true;;;
                          asyncio_sleep 1;;;
                          set_status_led "red" false) E s1).2).
  { apply try_after; [exact _ |]. intros e. keeps_walk grows_prim. }
  assert (Hbody : grows (requests_post (scan_url E)
                           (scan_data E (self s1) X (clock s)) 5 E s1).2
                    (report_scan X (clock s) E s1).2).
  { unfold report_scan. rewrite bind_ask, bind_get_self.
    apply bind_after; [exact _ |]. intros r. keeps_walk grows_prim. }
  rewrite requests_post_state in Hbody.
  destruct (transitivity Hbody Htail) as [Hself [l Hl]].
  cbn [self trace] in Hself, Hl. split.
  - rewrite Hself. reflexivity.
  - exists l. apply new_events_app. rewrite Hl, <- app_assoc. reflexivity.
Qed.

Lemma cooldown_active_fresh (h : TollChainHardware) (X : string) (t : Q) :
  last_scan_time h !! X = None -> cooldown_active h X t = false.
Proof. intros H. unfold cooldown_active. now rewrite H. Qed.

Lemma scan_accepted_processed (E : Env) (s : State) (X : string) :
  cooldown_active (self s) X (clock s) = false -> processed E X s.
Proof.
  intros H. destruct (scan_accepted E s X H) as [Hself [l Hl]].
  unfold processed. cbv zeta. rewrite Hself, Hl. cbn.
  split; [apply lookup_insert_eq | reflexivity].
Qed.

Lemma scan_suppressed_suppressed (E : Env) (s : State) (X : string) :
  cooldown_active (self s) X (clock s) = true -> suppressed E X s.
Proof.
  intros H. unfold suppressed. rewrite (scan_suppressed E s X H). cbn.
  repeat split. unfold new_events. cbn. now rewrite drop_app_length.
Qed.

(** ** What one accepted scan does, case by case *)

(** The backend cannot be reached: the POST raises and the handler of
    [process_vehicle_scan] pulses the red LED. *)
Lemma scan_unreachable_run (E : Env) (s : State) (X : string) :
  cooldown_active (self s) X (clock s) = false ->
  unreachable (outcome (reply_to E s X)) = true ->
  exists s',
    process_vehicle_scan X E s = (Ok tt, s') /\
    self s' = seen X (clock s) (self s) /\
    new_events s s' =
      [ (clock s, HttpPost (scan_url E) (scan_data E (self s) X (clock s)) 5);
        (clock s + elapsed (reply_to E s X),
         Log ERROR "Error processing vehicle scan: "
           (ArgExn (exn_of_unreachable (outcome (reply_to E s X)))));
        (clock s + elapsed (reply_to E s X), GpioOutput LED_RED true);
        (clock s + elapsed (reply_to E s X) + 1, GpioOutput LED_RED false) ]%Q.
Proof.
  intros Hcool Hun. unfold reply_to in *.
  unfold process_vehicle_scan. literals. run. rewrite Hcool. run.
  change (scan_data E _ X (clock s)) with (scan_data E (self s) X (clock s)).
  destruct (outcome _) eqn:Ho; [discriminate | |];
    (eexists; split; [reflexivity | split; [reflexivity | trace_eq]]).
Qed.

(** The backend answers with a status other than 200: the yellow LED is
    pulsed. *)
Lemma scan_rejected_run (E : Env) (s : State) (X : string) (e : Q) (r : Response) :
  cooldown_active (self s) X (clock s) = false ->
  reply_to E s X = {| elapsed := e; outcome := Responded r |} ->
  status_code r <> 200%Z ->
  exists s',
    process_vehicle_scan X E s = (Ok tt, s') /\
    self s' = seen X (clock s) (self s) /\
    new_events s s' =
      [ (clock s, HttpPost (scan_url E) (scan_data E (self s) X (clock s)) 5);
        (clock s + e, GpioOutput LED_YELLOW true);
        (clock s + e, Log ERROR "Backend error: " (ArgInt (status_code r)));
        (clock s + e + 1, GpioOutput LED_YELLOW false) ]%Q.
Proof.
  intros Hcool Hreply Hstatus. unfold reply_to in Hreply.
  apply Z.eqb_neq in Hstatus.
  unfold process_vehicle_scan, report_scan. literals. run. rewrite Hcool. run.
  change (scan_data E _ X (clock s)) with (scan_data E (self s) X (clock s)).
  rewrite Hreply. cbn [outcome elapsed]. rewrite Hstatus. run.
  eexists; split; [reflexivity | split; [reflexivity | trace_eq]].
Qed.

(** The backend answers 200 with a JSON object: the branch taken depends on
    the truth value of its "registered" entry, [False] when there is none. *)
Lemma scan_verdict_run (E : Env) (s : State) (X : string)
    (e : Q) (fields : list (string * Json)) :
  cooldown_active (self s) X (clock s) = false ->
  reply_to E s X =
    {| elapsed := e;
       outcome := Responded {| status_code := 200;
                               json_body := Some (JObj fields) |} |} ->
  (forall m, websocket (self s) <> None -> ws_send E (S (calls s)) m = true) ->
  exists s',
    process_vehicle_scan X E s = (Ok tt, s') /\
    self s' = seen X (clock s) (self s) /\
    calls s' = match websocket (self s) with
               | Some _ => S (S (calls s))
               | None => S (calls s)
               end /\
    new_events s s' =
      (if truthy match assoc "registered" fields with
                 | Some v => v
                 | None => JBool false
                 end
       then
         [ (clock s, HttpPost (scan_url E) (scan_data E (self s) X (clock s)) 5);
           (clock s + e, GpioOutput LED_GREEN true);
           (clock s + e, GpioOutput BUZZER_PIN true);
           (clock s + e + (3 # 10), GpioOutput BUZZER_PIN false);
           (clock s + e + (3 # 10),
            Log INFO "Registered vehicle detected: " (ArgStr X)) ] ++
         match websocket (self s) with
         | Some _ => [ (clock s + e + (3 # 10), WsSend (vehicle_detected X (clock s))) ]
         | None => []
         end ++
         [ (clock s + e + (3 # 10) + 2, GpioOutput LED_GREEN false);
           (clock s + e + (3 # 10) + 2, GpioOutput LED_RED false) ]
       else
         [ (clock s, HttpPost (scan_url E) (scan_data E (self s) X (clock s)) 5);
           (clock s + e, GpioOutput LED_RED true);
           (clock s + e, GpioOutput BUZZER_PIN true);
           (clock s + e + 1, GpioOutput BUZZER_PIN false);
           (clock s + e + 1,
            Log WARNING "Unregistered vehicle detected: " (ArgStr X)) ] ++
         match websocket (self s) with
         | Some _ => [ (clock s + e + 1, WsSend (unregistered_vehicle X (clock s))) ]
         | None => []
         end ++
         [ (clock s + e + 1 + 2, GpioOutput LED_GREEN false);
           (clock s + e + 1 + 2, GpioOutput LED_RED false) ])%Q.
Proof.
  intros Hcool Hreply Hsend. unfold reply_to in Hreply.
  unfold process_vehicle_scan, report_scan, buzz. literals. run.
  rewrite Hcool. run.
  change (scan_data E _ X (clock s)) with (scan_data E (self s) X (clock s)).
  rewrite Hreply. cbn [outcome elapsed status_code json_body Z.eqb Pos.eqb].
  run. unfold seen.
  destruct (truthy _), (websocket (self s)) as [ws |] eqn:Hws; run;
    rewrite ?Hsend by congruence;
    (eexists; split; [reflexivity | split; [reflexivity | split;
       [reflexivity | trace_eq]]]).
Qed.

(** On (re)connection the only message put on the channel is the status
    payload. *)
Lemma connect_sends_only_status (E : Env) (s : State) :
  Forall (fun tm => message_type tm.2 = Some (JStr "hardware_status"))
    (sent_messages (new_events s (connect_websocket E s).2)).
Proof.
  unfold connect_websocket, send_hardware_status. run.
  destruct (ws_connect E (calls s)); run.
  - destruct (ws_send E (S (calls s)) _); run.
    + erewrite new_events_app by (cbn [trace]; rewrite <- ?app_assoc; reflexivity).
      cbn. repeat constructor.
    + erewrite new_events_app by (cbn [trace]; rewrite <- ?app_assoc; reflexivity).
      cbn. constructor.
  - erewrite new_events_app by (cbn [trace]; rewrite <- ?app_assoc; reflexivity).
    cbn. constructor.
Qed.

(** ** The sensors *)

Lemma lstrip_head (l : list ascii) (c : ascii) (r : list ascii) :
  lstrip l = c :: r -> isspace c = false.
Proof.
  induction l as [| a l IH]; cbn; [discriminate |].
  destruct (isspace a) eqn:Ha; [exact IH |].
  intros H. injection H as -> _. exact Ha.
Qed.

Lemma lstrip_snoc (a : list ascii) (c : ascii) :
  isspace c = false -> exists a', lstrip (a ++ [c]) = a' ++ [c].
Proof.
  intros Hc. induction a as [| x a IH]; cbn.
  - rewrite Hc. now exists [].
  - destruct (isspace x); [exact IH |]. now exists (x :: a).
Qed.

Lemma rstrip_head (c : ascii) (y : list ascii) :
  isspace c = false -> exists r, rstrip (c :: y) = c :: r.
Proof.
  intros Hc. unfold rstrip. cbn [rev].
  destruct (lstrip_snoc (rev y) c Hc) as [a' Ha']. rewrite Ha'.
  rewrite rev_app_distr. cbn. now exists (rev a').
Qed.

Lemma strip_head (s : string) :
  nonempty (strip s) = true ->
  exists c r, list_ascii_of_string (strip s) = c :: r /\ isspace c = false.
Proof.
  unfold strip. rewrite list_ascii_of_string_of_list_ascii.
  destruct (lstrip (list_ascii_of_string s)) as [| c y] eqn:Hl.
  - cbn. discriminate.
  - intros _. pose proof (lstrip_head _ _ _ Hl) as Hc.
    destruct (rstrip_head c y Hc) as [r Hr]. rewrite Hr. now exists c, r.
Qed.

Lemma remove_char_head (x c : ascii) (r : list ascii) (s : string) :
  list_ascii_of_string s = c :: r -> Ascii.eqb c x = false ->
  exists r', list_ascii_of_string (remove_char x s) = c :: r'.
Proof.
  intros Hs Hc. unfold remove_char.
  rewrite list_ascii_of_string_of_list_ascii, Hs. cbn. rewrite Hc. cbn. eauto.
Qed.

Lemma not_space_not (x c : ascii) :
  isspace x = true -> isspace c = false -> Ascii.eqb c x = false.
Proof.
  intros Hx Hc. destruct (Ascii.eqb c x) eqn:He; [| reflexivity].
  apply Ascii.eqb_eq in He. congruence.
Qed.

(** What [read_rfid] hands over as an identifier is never the empty string. *)
Lemma vehicle_id_nonempty (decoded : string) :
  nonempty (strip decoded) = true ->
  nonempty (remove_char LF (remove_char CR (strip decoded))) = true.
Proof.
  intros H. destruct (strip_head decoded H) as [c [r [Hs Hc]]].
  destruct (remove_char_head CR c r _ Hs) as [r1 H1].
  { now apply not_space_not. }
  destruct (remove_char_head LF c r1 _ H1) as [r2 H2].
  { now apply not_space_not. }
  unfold nonempty. destruct (remove_char LF _); [discriminate H2 | reflexivity].
Qed.

#[local] Instance adds_only_preorder (ok : Event -> Prop) : PreOrder (adds_only ok).
Proof.
  split.
  - intros s. exists []. split; [now rewrite app_nil_r | constructor].
  - intros s1 s2 s3 [l1 [T1 F1]] [l2 [T2 F2]]. exists (l1 ++ l2). split.
    + now rewrite T2, T1, app_assoc.
    + now apply Forall_app.
Qed.

Lemma adds_emit (ok : Event -> Prop) (ev : Event) :
  ok ev -> keeps (adds_only ok) (emit ev).
Proof.
  intros H E s. eexists. split; [reflexivity |]. now repeat constructor.
Qed.

Lemma adds_silent (ok : Event -> Prop) {A : Type} (m : M A) :
  (forall E s, trace (m E s).2 = trace s) -> keeps (adds_only ok) m.
Proof.
  intros H E s. exists []. split; [now rewrite H, app_nil_r | constructor].
Qed.

Ltac adds_prim :=
  first [ apply adds_emit; cbn; solve [exact I | reflexivity]
        | apply adds_silent; intros ? ?; reflexivity ].

Lemma process_reports_only (X : string) :
  keeps (adds_only (reports_only X)) (process_vehicle_scan X).
Proof. keeps_walk adds_prim. Qed.

Lemma reports_only_polls (id : string) (l : list (Q * Event)) :
  Forall (fun te => reports_only id te.2) l ->
  polls l = [] /\ Forall (fun p => vehicleId p.2 = id) (posts l).
Proof.
  induction 1 as [| [t ev] l H _ [IH1 IH2]]; [split; [reflexivity | constructor] |].
  destruct ev; cbn in *; try contradiction; auto.
Qed.

Lemma no_poll_polls (l : list (Q * Event)) :
  Forall (fun te => no_poll te.2) l -> polls l = [].
Proof.
  induction 1 as [| [t ev] l H _ IH]; [reflexivity |].
  destruct ev; cbn in *; try contradiction; auto.
Qed.

Lemma polls_app (l1 l2 : list (Q * Event)) :
  polls (l1 ++ l2) = polls l1 ++ polls l2.
Proof.
  induction l1 as [| [t ev] l1 IH]; [reflexivity |].
  destruct ev; cbn; now rewrite ?IH.
Qed.

Lemma try_bind_ok {A B : Type} (m : M A) (k : A -> M B) (h : Exn -> M B)
    (E : Env) (s s1 : State) (a : A) :
  m E s = (Ok a, s1) ->
  try_except (bind m k) h E s = try_except (k a) h E s1.
Proof. intros H. unfold try_except, bind. now rewrite H. Qed.

Lemma try_get_self {B : Type} (f : TollChainHardware -> M B) (h : Exn -> M B)
    (E : Env) (s : State) :
  try_except (bind get_self f) h E s = try_except (f (self s)) h E s.
Proof. reflexivity. Qed.

Ltac sensor_done :=
  repeat split;
  try (cbn [trace]; rewrite <- ?app_assoc; reflexivity);
  try reflexivity; try congruence.

Lemma read_rfid_run (E : Env) (s : State) :
  exists r s1 l0,
    read_rfid E s = (Ok r, s1) /\
    self s1 = self s /\
    trace s1 = trace s ++ l0 /\
    polls l0 = match rfid_serial (self s) with Some _ => [true] | None => [] end /\
    forall id, r = Some id -> nonempty id = true.
Proof.
  unfold read_rfid. run.
  destruct (rfid_serial (self s)) as [port |].
  2: { exists None, s, []. rewrite app_nil_r. sensor_done. }
  run. destruct (serial_poll E (calls s)) as [| data |]; run.
  - eexists None, _, _. sensor_done.
  - destruct (utf8_decode E data) as [decoded |]; run.
    + destruct (nonempty (strip decoded)) eqn:Hne; cbn [andb].
      * destruct (0 <? String.length (strip decoded))%nat; run.
        -- eexists (Some _), _, _. sensor_done.
           intros id [= <-]. now apply vehicle_id_nonempty.
        -- eexists None, _, _. sensor_done.
      * eexists None, _, _. sensor_done.
    + eexists None, _, _. sensor_done.
  - eexists None, _, _. sensor_done.
Qed.

Lemma scan_qr_code_run (E : Env) (s : State) :
  camera (self s) <> None ->
  exists r s2 l,
    scan_qr_code E s = (Ok r, s2) /\
    self s2 = self s /\
    trace s2 = trace s ++ l /\
    polls l = [false].
Proof.
  intros Hcam. unfold scan_qr_code. run.
  destruct (camera (self s)) as [cam |]; [| congruence]. run.
  destruct (camera_read E (calls s)) as [| [| code codes] |]; run;
    try solve [eexists None, _, _; sensor_done].
  destruct (utf8_decode E code) as [v |]; run; eexists _, _, _; sensor_done.
Qed.

Lemma process_no_poll (X : string) :
  keeps (adds_only no_poll) (process_vehicle_scan X).
Proof. keeps_walk adds_prim. Qed.

(** ** Loops that do not end *)

#[local] Instance same_running_preorder : PreOrder same_running.
Proof.
  split.
  - intros s. reflexivity.
  - intros s1 s2 s3 H1 H2. unfold same_running in *. congruence.
Qed.

Lemma running_untouched {A : Type} (m : M A) :
  (forall E s, is_running (self (m E s).2) = is_running (self s)) ->
  keeps same_running m.
Proof. intros H E s. apply H. Qed.

Ltac running_prim :=
  apply running_untouched; intros ? ?; reflexivity.





Lemma total_ret {A : Type} (a : A) : total (ret a).
Proof. intros E s. now exists a. Qed.

Lemma total_bind {A B : Type} (m : M A) (k : A -> M B) :
  total m -> (forall a, total (k a)) -> total (bind m k).
Proof.
  intros Hm Hk E s. unfold bind. destruct (Hm E s) as [a Ha].
  destruct (m E s) as [[a' | e] s1]; cbn in Ha; [| discriminate].
  apply Hk.
Qed.

Lemma total_try_except {A : Type} (m : M A) (h : Exn -> M A) :
  (forall e, total (h e)) -> total (try_except m h).
Proof.
  intros Hh E s. unfold try_except.
  destruct (m E s) as [[a | e] s1]; [now exists a | apply Hh].
Qed.

Lemma total_logger (lvl : LogLevel) (text : string) (arg : LogArg) :
  total (logger lvl text arg).
Proof. intros E s. now exists tt. Qed.

Lemma total_asyncio_sleep (d : Q) : total (asyncio_sleep d).
Proof. intros E s. now exists tt. Qed.


(** A loop whose body always completes and leaves [is_running] alone is
    still looping after any number of passes. *)
Lemma while_running_forever (body : M unit) :
  total body -> keeps same_running body ->
  forall (n : nat) (E : Env) (s : State),
    is_running (self s) = true ->
    exists s',
      while_running n body E s = (Ok StillLooping, s') /\
      is_running (self s') = true.
Proof.
  intros Htot Hkeep n E. induction n as [| n IH]; intros s Hrun.
  - now exists s.
  - cbn [while_running]. rewrite bind_get_self, Hrun. unfold bind.
    destruct (Htot E s) as [[] Hok]. pose proof (Hkeep E s) as Hk.
    destruct (body E s) as [[[] | e] s1]; cbn in Hok, Hk; [| discriminate].
    apply IH. unfold same_running in Hk. congruence.
Qed.


(** ** The channel loop *)

Lemma running_websocket_cycle : keeps same_running websocket_cycle.
Proof. keeps_walk running_prim. Qed.

Lemma total_set_websocket (v : option WebSocket) : total (set_websocket v).
Proof. intros E s. now exists tt. Qed.

Lemma total_websocket_cycle : total websocket_cycle.
Proof.
  apply total_try_except. intros e.
  destruct e;
    repeat first [ apply total_logger | apply total_asyncio_sleep
                 | apply total_set_websocket
                 | apply total_bind; [| intros _] ].
Qed.

(** A pass that starts with the channel down starts with a connection
    attempt. *)
Lemma disconnected_pass (E : Env) (s : State) :
  websocket (self s) = None ->
  exists s' l,
    websocket_cycle E s = (Ok tt, s') /\
    new_events s s' = (clock s, WsConnect (WEBSOCKET_URL E)) :: l.
Proof.
  intros Hws. unfold websocket_cycle, connect_websocket, send_hardware_status.
  literals. run. rewrite Hws. run.
  destruct (ws_connect E (calls s)); run.
  - destruct (ws_send E (S (calls s)) _); run;
      eexists _, _; (split; [reflexivity | trace_eq]).
  - eexists _, _; (split; [reflexivity | trace_eq]).
Qed.

(** * The claims *)

(** ** C1: an unreachable backend *)

(** C1, as stated, fails: when the backend call for "VEH_003" times out the
    yellow LED is never driven; the pulse is on the red LED, from the moment
    the call gives up (t = 5) to one time-unit later. *)
Lemma C1_timeout_pulses_red_not_yellow :
  let E := booth_env times_out (tag "VEH_003") NoFrame true hangs_up in
  let s' := snd (process_vehicle_scan "VEH_003" E booth) in
  gpio_history LED_YELLOW (new_events booth s') = [] /\
  gpio_history LED_RED (new_events booth s') = [(5%Q, true); (6%Q, false)].
Proof. vm_compute. split; reflexivity. Qed.

(** C1, amended: for every accepted scan whose backend report fails as
    unreachable (timeout or connection failure), the feedback is the
    processing-error signal.  The run returns normally and adds exactly four
    events: the POST, the error log line, red ON when the call gives up, and
    red OFF 1.0 time-units later; no buzz, no notification, and the yellow LED
    is not touched. *)
Theorem C1_unreachable_backend_red_pulse (E : Env) (s : State) (X : string) :
  cooldown_active (self s) X (clock s) = false ->
  unreachable (outcome (reply_to E s X)) = true ->
  exists s',
    process_vehicle_scan X E s = (Ok tt, s') /\
    new_events s s' =
      [ (clock s, HttpPost (scan_url E) (scan_data E (self s) X (clock s)) 5);
        (clock s + elapsed (reply_to E s X),
         Log ERROR "Error processing vehicle scan: "
           (ArgExn (exn_of_unreachable (outcome (reply_to E s X)))));
        (clock s + elapsed (reply_to E s X), GpioOutput LED_RED true);
        (clock s + elapsed (reply_to E s X) + 1, GpioOutput LED_RED false) ]%Q.
Proof.
  intros Hcool Hun.
  destruct (scan_unreachable_run E s X Hcool Hun) as [s' [Hrun [_ Hev]]].
  exists s'. split; assumption.
Qed.

Lemma C1_unreachable_backend_red_pulse_witness :
  let E := booth_env times_out (tag "VEH_003") NoFrame true hangs_up in
  exists s',
    process_vehicle_scan "VEH_003" E booth = (Ok tt, s') /\
    new_events booth s' =
      [ (0, HttpPost (scan_url E) (scan_data E (self booth) "VEH_003" 0) 5);
        (5, Log ERROR "Error processing vehicle scan: " (ArgExn RequestsTimeout));
        (5, GpioOutput LED_RED true);
        (6, GpioOutput LED_RED false) ]%Q.
Proof.
  intros E.
  destruct (C1_unreachable_backend_red_pulse E booth "VEH_003"
              ltac:(vm_compute; reflexivity) ltac:(vm_compute; reflexivity))
    as [s' [Hrun Hev]].
  exists s'. split; [exact Hrun |]. rewrite Hev. vm_compute. reflexivity.
Defined.

(** ** C2: the cooldown window *)

(** C2: the first check ever made for an identifier X lets the scan through
    whatever the time; after a check that let X through at t1, a check at a
    later t2 suppresses the scan (the object, and so the last-seen time, is
    left as it was) when t2 - t1 < 5, and lets it through, recording t2, when
    t2 - t1 >= 5. *)
Theorem C2_cooldown_window (E : Env) (X : string) :
  (forall s, last_scan_time (self s) !! X = None -> processed E X s) /\
  (forall s1 s2,
     scan_cooldown (self s2) = 5%Q ->
     processed E X s1 ->
     last_scan_time (self s2) !! X =
       last_scan_time (self (process_vehicle_scan X E s1).2) !! X ->
     (clock s1 < clock s2)%Q ->
     ((clock s2 - clock s1 < 5)%Q -> suppressed E X s2) /\
     ((5 <= clock s2 - clock s1)%Q -> processed E X s2)).
Proof.
  split.
  - intros s Hnew. apply scan_accepted_processed.
    now apply cooldown_active_fresh.
  - intros s1 s2 Hcd [Hseen _] Hsame _. rewrite Hseen in Hsame.
    assert (Hgate : cooldown_active (self s2) X (clock s2) =
                    Qltb (clock s2 - clock s1) 5).
    { unfold cooldown_active. now rewrite Hsame, Hcd. }
    split; intros Hd.
    + apply scan_suppressed_suppressed. rewrite Hgate. now apply Qltb_lt.
    + apply scan_accepted_processed. rewrite Hgate. now apply Qltb_ge.
Qed.

Lemma C2_cooldown_window_witness :
  let E := booth_env (answers 200 (Some (verdict true))) (tag "VEH_001")
             NoFrame true hangs_up in
  let s2 := (process_vehicle_scan "VEH_001" E booth).2 in
  processed E "VEH_001" booth /\
  suppressed E "VEH_001" s2 /\
  processed E "VEH_001" (idle 3 s2).
Proof.
  intros E s2.
  destruct (C2_cooldown_window E "VEH_001") as [Hfirst Hnext].
  assert (H1 : processed E "VEH_001" booth)
    by (apply Hfirst; vm_compute; reflexivity).
  split; [exact H1 |]. split.
  - apply (Hnext booth s2 ltac:(vm_compute; reflexivity) H1
             ltac:(vm_compute; reflexivity) ltac:(vm_compute; reflexivity)).
    vm_compute; reflexivity.
  - apply (Hnext booth (idle 3 s2) ltac:(vm_compute; reflexivity) H1
             ltac:(vm_compute; reflexivity) ltac:(vm_compute; reflexivity)).
    vm_compute; congruence.
Defined.

(** ** C3: feedback for a verdict *)




(** ** C7: notifications while the channel is down *)

(** C7: when an accepted scan gets its verdict while the event channel is not
    connected, the notification is dropped silently.  The run returns
    normally and logs no error; nothing is sent; the only external call made
    is the POST, so the scan does not wait on the channel; the object keeps
    nothing but the last-seen time of the identifier; and a later
    (re)connection puts nothing on the channel except the status payload. *)
Theorem C7_notification_dropped_when_disconnected (E : Env) (s : State)
    (X : string) (e : Q) (fields : list (string * Json)) :
  cooldown_active (self s) X (clock s) = false ->
  reply_to E s X =
    {| elapsed := e;
       outcome := Responded {| status_code := 200;
                               json_body := Some (JObj fields) |} |} ->
  channel_state (self s) = Disconnected ->
  exists s',
    process_vehicle_scan X E s = (Ok tt, s') /\
    error_logs (new_events s s') = [] /\
    sent_messages (new_events s s') = [] /\
    calls s' = S (calls s) /\
    self s' = seen X (clock s) (self s) /\
    Forall (fun tm => message_type tm.2 = Some (JStr "hardware_status"))
      (sent_messages (new_events s' (connect_websocket E s').2)).
Proof.
  intros Hcool Hreply Hoff.
  assert (Hws : websocket (self s) = None).
  { unfold channel_state in Hoff. now destruct (websocket (self s)). }
  destruct (scan_verdict_run E s X e fields Hcool Hreply) as [s' Hs'].
  { intros m Hcon. congruence. }
  destruct Hs' as [Hrun [Hself [Hcalls Hev]]]. rewrite Hws in Hcalls, Hev.
  exists s'. split; [exact Hrun |].
  repeat split; try assumption.
  - rewrite Hev. now destruct (truthy _).
  - rewrite Hev. now destruct (truthy _).
  - apply connect_sends_only_status.
Qed.

Lemma C7_notification_dropped_when_disconnected_witness :
  let E := booth_env (answers 200 (Some (verdict true))) (tag "VEH_001")
             NoFrame true hangs_up in
  exists s',
    process_vehicle_scan "VEH_001" E booth = (Ok tt, s') /\
    error_logs (new_events booth s') = [] /\
    sent_messages (new_events booth s') = [] /\
    calls s' = S (calls booth) /\
    self s' = seen "VEH_001" (clock booth) (self booth) /\
    Forall (fun tm => message_type tm.2 = Some (JStr "hardware_status"))
      (sent_messages (new_events s' (connect_websocket E s').2)).
Proof.
  intros E.
  exact (C7_notification_dropped_when_disconnected E booth "VEH_001" 0
           [("registered", JBool true)]
           ltac:(vm_compute; reflexivity) ltac:(vm_compute; reflexivity)
           ltac:(vm_compute; reflexivity)).
Defined.

(** ** C10: a 200 answer without a true "registered" *)



(** ** C4: the scan type sent to the backend *)

(** C4 fails on the code: with the RFID reader attached but no tag waiting,
    the identifier "VEH_QR1" comes from the camera (the polls are the port,
    then the camera), and the scan is nevertheless posted with scanType
    "rfid": line 229 looks at whether a reader is attached, not at the sensor
    that produced the identifier. *)
Lemma C4_qr_scan_reported_as_rfid :
  let E := booth_env (answers 200 (Some (verdict true))) NothingWaiting
             (qr "VEH_QR1") true hangs_up in
  let s' := (scan_cycle E booth).2 in
  polls (new_events booth s') = [true; false] /\
  map (fun p => (vehicleId p.2, scanType p.2)) (posts (new_events booth s')) =
    [("VEH_QR1", "rfid")].
Proof. vm_compute. split; reflexivity. Qed.

(** ** C8: a failed report is not retried *)

(** C8: for every accepted scan whose report fails, by an unreachable backend
    or by a status other than 200, the run still returns normally with the
    identifier's last-seen time set to the time of the scan (it was recorded
    before the call and is not rolled back) and exactly one POST made; from
    any later state that still holds this last-seen time, a scan of the same
    identifier less than 5 time-units after the first is suppressed: nothing
    is posted. *)
Theorem C8_failed_report_not_retried_in_cooldown (E : Env) (s : State) (X : string) :
  cooldown_active (self s) X (clock s) = false ->
  (unreachable (outcome (reply_to E s X)) = true \/
   exists r, outcome (reply_to E s X) = Responded r /\ status_code r <> 200%Z) ->
  exists s',
    process_vehicle_scan X E s = (Ok tt, s') /\
    last_scan_time (self s') !! X = Some (clock s) /\
    posts (new_events s s') = [(clock s, scan_data E (self s) X (clock s))] /\
    forall E2 s2,
      last_scan_time (self s2) !! X = last_scan_time (self s') !! X ->
      scan_cooldown (self s2) = 5%Q ->
      (clock s2 - clock s < 5)%Q ->
      suppressed E2 X s2.
Proof.
  intros Hcool Hfail.
  assert (Hrun : exists s',
             process_vehicle_scan X E s = (Ok tt, s') /\
             self s' = seen X (clock s) (self s) /\
             posts (new_events s s') = [(clock s, scan_data E (self s) X (clock s))]).
  { destruct Hfail as [Hun | [r [Hout Hstatus]]].
    - destruct (scan_unreachable_run E s X Hcool Hun) as [s' [Hrun [Hself Hev]]].
      exists s'. rewrite Hev. auto.
    - destruct (reply_to E s X) as [e o] eqn:Hreply. cbn in Hout. subst o.
      destruct (scan_rejected_run E s X e r Hcool Hreply Hstatus)
        as [s' [Hrun [Hself Hev]]].
      exists s'. rewrite Hev. auto. }
  destruct Hrun as [s' [Hrun [Hself Hposts]]].
  assert (Hseen : last_scan_time (self s') !! X = Some (clock s)).
  { rewrite Hself. cbn. apply lookup_insert_eq. }
  exists s'. split; [exact Hrun |]. split; [exact Hseen |].
  split; [exact Hposts |].
  intros E2 s2 Hsame Hcd Hd. apply scan_suppressed_suppressed.
  unfold cooldown_active. rewrite Hsame, Hseen, Hcd. now apply Qltb_lt.
Qed.

Lemma C8_failed_report_not_retried_in_cooldown_witness :
  let E := booth_env times_out (tag "VEH_003") NoFrame true hangs_up in
  exists s',
    process_vehicle_scan "VEH_003" E booth = (Ok tt, s') /\
    last_scan_time (self s') !! "VEH_003" = Some (clock booth) /\
    posts (new_events booth s') =
      [(clock booth, scan_data E (self booth) "VEH_003" (clock booth))] /\
    forall E2 s2,
      last_scan_time (self s2) !! "VEH_003" = last_scan_time (self s') !! "VEH_003" ->
      scan_cooldown (self s2) = 5%Q ->
      (clock s2 - clock booth < 5)%Q ->
      suppressed E2 "VEH_003" s2.
Proof.
  intros E.
  exact (C8_failed_report_not_retried_in_cooldown E booth "VEH_003"
           ltac:(vm_compute; reflexivity)
           ltac:(left; vm_compute; reflexivity)).
Defined.

(** ** C5: RFID before QR *)

(** The order of the polls of a cycle: the events of the cycle begin with
    those of [read_rfid]; the camera is polled at most once after that, and
    only when [read_rfid] returned nothing and a camera is attached. *)
Lemma scan_cycle_poll_order (E : Env) (s : State) :
  exists r l,
    (read_rfid E s).1 = Ok r /\
    polls (new_events s (read_rfid E s).2) =
      match rfid_serial (self s) with Some _ => [true] | None => [] end /\
    new_events s (scan_cycle E s).2 = new_events s (read_rfid E s).2 ++ l /\
    (polls l = [] \/ polls l = [false]) /\
    (polls l = [false] -> r = None /\ camera (self s) <> None) /\
    (forall id, r = Some id ->
       polls l = [] /\ Forall (fun p => vehicleId p.2 = id) (posts l)).
Proof.
  destruct (read_rfid_run E s) as (r & s1 & l0 & Hrun & Hself & Ht & Hp & Hne).
  exists r.
  assert (Hstart : new_events s (read_rfid E s).2 = l0).
  { rewrite Hrun. now apply new_events_app. }
  rewrite Hstart, Hrun, Hp. cbn [fst].
  unfold scan_cycle. rewrite (try_bind_ok _ _ _ _ _ _ _ Hrun), try_get_self, Hself.
  destruct r as [id |].
  - pose proof (Hne id eq_refl) as Hid. cbn [present]. rewrite Hid. cbn [negb andb].
    rewrite (try_bind_ok _ _ _ E s1 s1 (Some id) eq_refl), Hid.
    match goal with
    | |- context [try_except ?m ?h E s1] =>
      assert (Hk : keeps (adds_only (reports_only id)) (try_except m h))
    end.
    { keeps_walk ltac:(first [apply process_reports_only | adds_prim]). }
    destruct (Hk E s1) as [l [Hl Hok]].
    apply reports_only_polls in Hok. destruct Hok as [Hpolls Hposts].
    exists l. split; [reflexivity |]. split; [reflexivity |]. split.
    { apply new_events_app. now rewrite Hl, Ht, app_assoc. }
    split; [now left |]. split; [rewrite Hpolls; discriminate |].
    intros id' [= <-]. now split.
  - cbn [present negb andb].
    destruct (camera (self s)) as [cam |] eqn:Hcam.
    + rewrite bool_decide_eq_true_2 by congruence.
      destruct (scan_qr_code_run E s1) as (v & s2 & lq & Hq & _ & Htq & Hpq).
      { rewrite Hself, Hcam. congruence. }
      rewrite (try_bind_ok _ _ _ _ _ _ _ Hq).
      match goal with
      | |- context [try_except ?m ?h E s2] =>
        assert (Hk : keeps (adds_only no_poll) (try_except m h))
      end.
      { keeps_walk ltac:(first [apply process_no_poll | adds_prim]). }
      destruct (Hk E s2) as [l [Hl Hok]]. apply no_poll_polls in Hok.
      exists (lq ++ l). split; [reflexivity |]. split; [reflexivity |]. split.
      { apply new_events_app. now rewrite Hl, Htq, Ht, !app_assoc. }
      rewrite polls_app, Hpq, Hok. cbn.
      split; [now right |]. split; [intros _; split; congruence | discriminate].
    + rewrite bool_decide_eq_false_2 by (intros H; now apply H).
      rewrite (try_bind_ok _ _ _ E s1 s1 None eq_refl).
      match goal with
      | |- context [try_except ?m ?h E s1] =>
        assert (Hk : keeps (adds_only no_poll) (try_except m h))
      end.
      { keeps_walk adds_prim. }
      destruct (Hk E s1) as [l [Hl Hok]]. apply no_poll_polls in Hok.
      exists l. split; [reflexivity |]. split; [reflexivity |]. split.
      { apply new_events_app. now rewrite Hl, Ht, app_assoc. }
      rewrite Hok. split; [now left |]. split; [discriminate | discriminate].
Qed.

Lemma total_time_time : total time_time.
Proof. intros E s. now exists (clock s). Qed.

Lemma total_get_self : total get_self.
Proof. intros E s. now exists (self s). Qed.

Lemma total_set_last_scan_time (X : string) (t : Q) :
  total (set_last_scan_time X t).
Proof. intros E s. now exists tt. Qed.

Lemma total_set_status_led (c : Json) (b : bool) : total (set_status_led c b).
Proof. apply total_try_except. intros e. apply total_logger. Qed.

Lemma process_vehicle_scan_returns (X : string) (E : Env) (s : State) :
  (process_vehicle_scan X E s).1 = Ok tt.
Proof.
  assert (H : total (process_vehicle_scan X)).
  { unfold process_vehicle_scan.
    apply total_bind; [apply total_time_time | intros t].
    apply total_bind; [apply total_get_self | intros h].
    destruct (cooldown_active h X t); [apply total_logger |].
    apply total_bind; [apply total_set_last_scan_time | intros _].
    apply total_try_except. intros e.
    repeat first [ apply total_logger | apply total_asyncio_sleep
                 | apply total_set_status_led
                 | apply total_bind; [| intros _] ]. }
  destruct (H E s) as [[] Hok]. exact Hok.
Qed.

Lemma nonempty_length (x : string) :
  nonempty x = true -> (0 <? String.length x)%nat = true.
Proof. now destruct x. Qed.

(** A waiting line that decodes to something other than blanks is handed
    over, cleaned. *)
Lemma read_rfid_tag (E : Env) (s : State) (port : Serial)
    (raw : list ascii) (decoded : string) :
  rfid_serial (self s) = Some port ->
  serial_poll E (calls s) = Line raw ->
  utf8_decode E raw = Some decoded ->
  nonempty (strip decoded) = true ->
  exists s1 l0,
    read_rfid E s = (Ok (Some (cleaned decoded)), s1) /\
    self s1 = self s /\
    trace s1 = trace s ++ l0 /\
    polls l0 = [true] /\ posts l0 = [].
Proof.
  intros Hport Hline Hdec Hne. unfold read_rfid, cleaned. run.
  rewrite Hport. run. rewrite Hline. run. rewrite Hdec. run.
  rewrite Hne, (nonempty_length _ Hne). cbn [andb]. run.
  eexists _, _. split; [reflexivity |]. split; [reflexivity |].
  split; [cbn [trace]; rewrite <- app_assoc; reflexivity |]. now split.
Qed.

(** With no port, or nothing waiting on it, [read_rfid] hands over
    nothing. *)
Lemma read_rfid_nothing (E : Env) (s : State) :
  rfid_serial (self s) = None \/ serial_poll E (calls s) = NothingWaiting ->
  exists s1 l0,
    read_rfid E s = (Ok None, s1) /\
    self s1 = self s /\
    calls s1 = camera_call s /\
    trace s1 = trace s ++ l0 /\
    polls l0 = match rfid_serial (self s) with Some _ => [true] | None => [] end /\
    posts l0 = [].
Proof.
  intros Hcase. unfold read_rfid, camera_call. run.
  destruct (rfid_serial (self s)) as [port |] eqn:Hport.
  - destruct Hcase as [Hc | Hc]; [discriminate |]. run. rewrite Hc. run.
    eexists _, _. split; [reflexivity |]. split; [reflexivity |].
    split; [reflexivity |]. split; [reflexivity |]. now split.
  - exists s, []. rewrite app_nil_r. now repeat split.
Qed.

Lemma scan_qr_code_payload (E : Env) (s : State) (cam : VideoCapture)
    (code : list ascii) (others : list (list ascii)) (v : string) :
  camera (self s) = Some cam ->
  camera_read E (calls s) = Frame (code :: others) ->
  utf8_decode E code = Some v ->
  exists s2 l,
    scan_qr_code E s = (Ok (Some v), s2) /\
    self s2 = self s /\
    trace s2 = trace s ++ l /\
    polls l = [false] /\ posts l = [].
Proof.
  intros Hcam Hframe Hdec. unfold scan_qr_code. run. rewrite Hcam. run.
  rewrite Hframe. run. rewrite Hdec. run.
  eexists _, _. split; [reflexivity |]. split; [reflexivity |].
  split; [cbn [trace]; rewrite <- app_assoc; reflexivity |]. now split.
Qed.

Lemma posts_app (l1 l2 : list (Q * Event)) :
  posts (l1 ++ l2) = posts l1 ++ posts l2.
Proof.
  induction l1 as [| [t ev] l1 IH]; [reflexivity |].
  destruct ev; cbn; now rewrite ?IH.
Qed.

(** What a cycle adds once an identifier [id] has been produced in state
    [s1]: the events of [process_vehicle_scan id]. *)
Lemma cycle_processes (E : Env) (s1 : State) (id : string) :
  exists l,
    trace (try_except
             (process_vehicle_scan id;;; asyncio_sleep (1 # 10))
             (fun e =>
                logger ERROR "Error in scan loop: " (ArgExn e);;;
                asyncio_sleep 1) E s1).2 = trace s1 ++ l /\
    polls l = [] /\
    Forall (fun p => vehicleId p.2 = id) (posts l) /\
    (cooldown_active (self s1) id (clock s1) = false ->
     head (posts l) = Some (clock s1, scan_data E (self s1) id (clock s1))).
Proof.
  unfold try_except, bind.
  pose proof (process_vehicle_scan_returns id E s1) as Hret.
  destruct (process_reports_only id E s1) as [l [Hl Hok]].
  pose proof (scan_accepted E s1 id) as Hacc.
  destruct (process_vehicle_scan id E s1) as [r s1'] eqn:Hrun.
  cbn [fst snd] in *. subst r. cbn [snd trace asyncio_sleep advance].
  exists l. split; [exact Hl |].
  apply reports_only_polls in Hok. destruct Hok as [Hpolls Hposts].
  split; [exact Hpolls |]. split; [exact Hposts |].
  intros Hcool. destruct (Hacc Hcool) as [_ [l' Hl']].
  unfold new_events in Hl'. rewrite Hl, drop_app_length in Hl'. now rewrite Hl'.
Qed.

(** C5: in every scan cycle the RFID source is polled first and the QR source
    only if the RFID poll yields nothing and a camera is available.
    When a line is waiting on the port that decodes to something other than
    blanks, whatever the camera holds in the same cycle, [read_rfid] returns
    the cleaned line, the port is the only sensor polled, every report of
    the cycle is for that identifier, and, unless it is in its cooldown, the
    cycle reports it to the backend first thing.  When there is no port, or
    nothing waits on it, and the camera holds a QR code with a non-empty
    payload, the camera is polled after the port and that payload is what
    the cycle processes and reports.  Without a camera the camera is never
    polled. *)
Theorem C5_rfid_has_priority (E : Env) (s : State) :
  (forall port raw decoded,
     rfid_serial (self s) = Some port ->
     serial_poll E (calls s) = Line raw ->
     utf8_decode E raw = Some decoded ->
     nonempty (strip decoded) = true ->
     (read_rfid E s).1 = Ok (Some (cleaned decoded)) /\
     polls (new_events s (scan_cycle E s).2) = [true] /\
     Forall (fun p => vehicleId p.2 = cleaned decoded)
       (posts (new_events s (scan_cycle E s).2)) /\
     (cooldown_active (self s) (cleaned decoded) (clock (read_rfid E s).2) = false ->
      head (posts (new_events s (scan_cycle E s).2)) =
        Some (clock (read_rfid E s).2,
              scan_data E (self s) (cleaned decoded) (clock (read_rfid E s).2)))) /\
  (forall cam code others v,
     rfid_serial (self s) = None \/ serial_poll E (calls s) = NothingWaiting ->
     camera (self s) = Some cam ->
     camera_read E (camera_call s) = Frame (code :: others) ->
     utf8_decode E code = Some v ->
     nonempty v = true ->
     polls (new_events s (scan_cycle E s).2) =
       match rfid_serial (self s) with
       | Some _ => [true; false]
       | None => [false]
       end /\
     Forall (fun p => vehicleId p.2 = v)
       (posts (new_events s (scan_cycle E s).2)) /\
     (cooldown_active (self s) v
        (clock (scan_qr_code E (read_rfid E s).2).2) = false ->
      head (posts (new_events s (scan_cycle E s).2)) =
        Some (clock (scan_qr_code E (read_rfid E s).2).2,
              scan_data E (self s) v
                (clock (scan_qr_code E (read_rfid E s).2).2)))) /\
  (camera (self s) = None ->
   polls (new_events s (scan_cycle E s).2) =
     match rfid_serial (self s) with
     | Some _ => [true]
     | None => []
     end).
Proof.
  split; [| split].
  - intros port raw decoded Hport Hline Hdec Hne.
    destruct (read_rfid_tag E s port raw decoded Hport Hline Hdec Hne)
      as (s1 & l0 & Hrun & Hself & Ht & Hp0 & Hq0).
    pose proof (vehicle_id_nonempty decoded Hne) as Hid. fold (cleaned decoded) in Hid.
    destruct (cycle_processes E s1 (cleaned decoded)) as (l & Hl & Hpl & Hall & Hhead).
    assert (Hev : new_events s (scan_cycle E s).2 = l0 ++ l).
    { apply new_events_app. unfold scan_cycle.
      rewrite (try_bind_ok _ _ _ _ _ _ _ Hrun), try_get_self.
      cbn [present]. rewrite Hid. cbn [negb andb].
      rewrite (try_bind_ok _ _ _ E s1 s1 (Some (cleaned decoded)) eq_refl), Hid.
      now rewrite Hl, Ht, app_assoc. }
    rewrite Hev, Hrun, polls_app, posts_app, Hp0, Hq0, Hpl. cbn [fst snd app].
    split; [reflexivity |]. split; [reflexivity |]. split; [exact Hall |].
    rewrite <- Hself. exact Hhead.
  - intros cam code others v Hnone Hcam Hframe Hdec Hv.
    destruct (read_rfid_nothing E s Hnone)
      as (s1 & l0 & Hrun & Hself & Hcalls & Ht & Hp0 & Hq0).
    destruct (scan_qr_code_payload E s1 cam code others v)
      as (s2 & lq & Hq & Hself2 & Htq & Hpq & Hqq).
    { now rewrite Hself. } { now rewrite Hcalls. } { exact Hdec. }
    destruct (cycle_processes E s2 v) as (l & Hl & Hpl & Hall & Hhead).
    assert (Hev : new_events s (scan_cycle E s).2 = l0 ++ lq ++ l).
    { apply new_events_app. unfold scan_cycle.
      rewrite (try_bind_ok _ _ _ _ _ _ _ Hrun), try_get_self.
      cbn [present negb andb]. rewrite Hself, Hcam.
      rewrite bool_decide_eq_true_2 by congruence.
      rewrite (try_bind_ok _ _ _ _ _ _ _ Hq), Hv.
      now rewrite Hl, Htq, Ht, !app_assoc. }
    rewrite Hev, Hrun, !polls_app, !posts_app, Hp0, Hq0, Hpq, Hqq, Hpl.
    cbn [fst snd app]. rewrite Hq. cbn [snd].
    split; [now destruct (rfid_serial (self s)) |]. split; [exact Hall |].
    rewrite <- Hself, <- Hself2. exact Hhead.
  - intros Hcam.
    destruct (scan_cycle_poll_order E s)
      as (r & l & _ & Hp & Hev & Hor & Hq & _).
    rewrite Hev, polls_app, Hp.
    destruct Hor as [Hl | Hl].
    + rewrite Hl. now rewrite app_nil_r.
    + destruct (Hq Hl) as [_ Hc]. congruence.
Qed.

Lemma C5_rfid_has_priority_witness :
  let E := booth_env (answers 200 (Some (verdict true))) (tag "VEH_001")
             (qr "VEH_QR1") true hangs_up in
  (read_rfid E booth).1 = Ok (Some "VEH_001") /\
  polls (new_events booth (scan_cycle E booth).2) = [true] /\
  Forall (fun p => vehicleId p.2 = "VEH_001")
    (posts (new_events booth (scan_cycle E booth).2)) /\
  head (posts (new_events booth (scan_cycle E booth).2)) =
    Some (clock (read_rfid E booth).2,
          scan_data E (self booth) "VEH_001" (clock (read_rfid E booth).2)).
Proof.
  intros E.
  destruct (C5_rfid_has_priority E booth) as [Hrfid _].
  destruct (Hrfid (serial_Serial "/dev/ttyUSB0")
              (list_ascii_of_string "VEH_001" ++ [LF])
              (string_of_list_ascii (list_ascii_of_string "VEH_001" ++ [LF]))
              ltac:(vm_compute; reflexivity) ltac:(vm_compute; reflexivity)
              ltac:(vm_compute; reflexivity) ltac:(vm_compute; reflexivity))
    as (Hread & Hpolls & Hall & Hhead).
  split; [exact Hread |]. split; [exact Hpolls |]. split; [exact Hall |].
  exact (Hhead ltac:(vm_compute; reflexivity)).
Defined.

(** ** C9: a failing cycle does not stop the scan loop *)




(** ** C6: reconnecting the event channel *)

(** C6, as stated, fails for a failed send: the status payload requested by
    the backend cannot be sent, the failure is logged inside
    [send_hardware_status], and the pass ends with the channel still counted
    as connected and without any backoff: the clock has not moved. *)
Lemma C6_failed_send_leaves_channel_connected :
  let command := JObj [("type", JStr "hardware_command");
                       ("command", JStr "status_request")] in
  let E := booth_env (answers 200 (Some (verdict true))) NothingWaiting NoFrame
             false (0%Q, Received (Some command)) in
  let s' := (websocket_cycle E booth_online).2 in
  error_logs (new_events booth_online s') =
    [(0%Q, "Failed to send hardware status: ")] /\
  channel_state (self s') = Connected /\
  clock s' = clock booth_online.
Proof. vm_compute. repeat split; reflexivity. Qed.

(** C6, amended: when a receive finds the channel closed, the pass ends with
    the channel disconnected, having only logged the closure, and the next
    pass opens with the reconnect attempt exactly 5 time-units after the
    failure; when a connection attempt fails, the channel stays disconnected
    and the next pass opens with the next attempt exactly 5 time-units later;
    and the loop is still looping after any number of passes as long as the
    process runs. *)
Theorem C6_closed_channel_backoff (E : Env) :
  (forall s,
     websocket (self s) <> None ->
     (ws_recv E (calls s)).2 = RecvClosed ->
     exists s1 s2 l,
       websocket_cycle E s = (Ok tt, s1) /\
       channel_state (self s1) = Disconnected /\
       new_events s s1 =
         [ (clock s + (ws_recv E (calls s)).1,
            Log WARNING "WebSocket connection closed, reconnecting..." NoArg) ]%Q /\
       websocket_cycle E s1 = (Ok tt, s2) /\
       new_events s1 s2 =
         ((clock s + (ws_recv E (calls s)).1 + 5)%Q,
          WsConnect (WEBSOCKET_URL E)) :: l) /\
  (forall s,
     websocket (self s) = None ->
     ws_connect E (calls s) = false ->
     exists s1 s2 l,
       websocket_cycle E s = (Ok tt, s1) /\
       channel_state (self s1) = Disconnected /\
       new_events s s1 =
         [ (clock s, WsConnect (WEBSOCKET_URL E));
           (clock s, Log ERROR "Failed to connect to WebSocket: "
                       (ArgExn WebSocketConnectError)) ] /\
       websocket_cycle E s1 = (Ok tt, s2) /\
       new_events s1 s2 =
         ((clock s + 5)%Q, WsConnect (WEBSOCKET_URL E)) :: l) /\
  (forall n s,
     is_running (self s) = true -> (websocket_loop n E s).1 = Ok StillLooping).
Proof.
  split; [| split].
  - intros s Hws Hclosed.
    destruct (websocket (self s)) as [ws |] eqn:Hw; [| congruence].
    assert (Hpass : exists s1,
               websocket_cycle E s = (Ok tt, s1) /\
               websocket (self s1) = None /\
               clock s1 = (clock s + (ws_recv E (calls s)).1 + 5)%Q /\
               new_events s s1 =
                 [ (clock s + (ws_recv E (calls s)).1,
                    Log WARNING "WebSocket connection closed, reconnecting..."
                      NoArg) ]%Q).
    { unfold websocket_cycle. literals. run. rewrite Hw. run. rewrite Hclosed.
      run. eexists. split; [reflexivity |]. split; [reflexivity |].
      split; [reflexivity | trace_eq]. }
    destruct Hpass as (s1 & Hrun & Hnone & Hclock & Hev).
    destruct (disconnected_pass E s1 Hnone) as (s2 & l & Hrun2 & Hev2).
    exists s1, s2, l. rewrite <- Hclock. unfold channel_state. rewrite Hnone.
    auto.
  - intros s Hws Hfail.
    assert (Hpass : exists s1,
               websocket_cycle E s = (Ok tt, s1) /\
               websocket (self s1) = None /\
               clock s1 = (clock s + 5)%Q /\
               new_events s s1 =
                 [ (clock s, WsConnect (WEBSOCKET_URL E));
                   (clock s, Log ERROR "Failed to connect to WebSocket: "
                               (ArgExn WebSocketConnectError)) ]).
    { unfold websocket_cycle, connect_websocket. literals. run. rewrite Hws.
      run. rewrite Hfail. run.
      eexists. split; [reflexivity |]. split; [reflexivity |].
      split; [reflexivity | trace_eq]. }
    destruct Hpass as (s1 & Hrun & Hnone & Hclock & Hev).
    destruct (disconnected_pass E s1 Hnone) as (s2 & l & Hrun2 & Hev2).
    exists s1, s2, l. rewrite <- Hclock. unfold channel_state. rewrite Hnone.
    auto.
  - intros n s Hrun. unfold websocket_loop.
    destruct (while_running_forever websocket_cycle total_websocket_cycle
                running_websocket_cycle n E s Hrun) as [s' [Hw _]].
    now rewrite Hw.
Qed.

Lemma C6_closed_channel_backoff_witness :
  let E := booth_env (answers 200 (Some (verdict true))) NothingWaiting NoFrame
             true hangs_up in
  (exists s1 s2 l,
     websocket_cycle E booth_online = (Ok tt, s1) /\
     channel_state (self s1) = Disconnected /\
     new_events booth_online s1 =
       [ (clock booth_online + (ws_recv E (calls booth_online)).1,
          Log WARNING "WebSocket connection closed, reconnecting..." NoArg) ]%Q /\
     websocket_cycle E s1 = (Ok tt, s2) /\
     new_events s1 s2 =
       ((clock booth_online + (ws_recv E (calls booth_online)).1 + 5)%Q,
        WsConnect (WEBSOCKET_URL E)) :: l) /\
  (websocket_loop 4 E booth_online).1 = Ok StillLooping.
Proof.
  intros E.
  destruct (C6_closed_channel_backoff E) as [Hclosed [_ Hloop]].
  split.
  - apply (Hclosed booth_online); [vm_compute; congruence | reflexivity].
  - apply Hloop. reflexivity.
Defined.

(** * Further properties of the code *)

(** ** Tools *)

Lemma new_events_none (s s' : State) :
  trace s' = trace s -> new_events s s' = [].
Proof. intros H. unfold new_events. rewrite H. apply drop_all. Qed.

Ltac trace_same := apply new_events_none; reflexivity.

Ltac pin_lookup :=
  cbn [pins]; unfold LED_GREEN, LED_RED, LED_YELLOW, BUZZER_PIN;
  repeat (rewrite lookup_insert_ne by lia);
  first [apply lookup_insert_eq | reflexivity].

Lemma GPIO_output_run (pin : Z) (level : bool) (E : Env) (s : State) :
  GPIO_output pin level E s =
  (Ok tt,
   {| self := self s; clock := clock s; pins := <[pin := level]> (pins s);
      calls := calls s; trace := trace s ++ [(clock s, GpioOutput pin level)] |}).
Proof. reflexivity. Qed.

#[local] Instance settings_kept_preorder : PreOrder settings_kept.
Proof.
  split.
  - intros s. unfold settings_kept. repeat split; reflexivity.
  - intros s1 s2 s3 (A1 & B1 & C1 & D1 & F1 & G1) (A2 & B2 & C2 & D2 & F2 & G2).
    unfold settings_kept. repeat split; try congruence.
    etransitivity; eassumption.
Qed.

#[local] Instance others_kept_preorder (X : string) : PreOrder (others_kept X).
Proof.
  split.
  - intros s Y _. reflexivity.
  - intros s1 s2 s3 H1 H2 Y HY. now rewrite H2, H1.
Qed.

Lemma settings_untouched {A : Type} (m : M A) :
  (forall E s, self (m E s).2 = self s) -> keeps settings_kept m.
Proof.
  intros H E s. unfold settings_kept. rewrite H. repeat split; reflexivity.
Qed.

Lemma settings_set_last_scan_time (X : string) (t : Q) :
  keeps settings_kept (set_last_scan_time X t).
Proof.
  intros E s. unfold settings_kept. cbn. repeat split.
  apply dom_insert_subseteq.
Qed.

Ltac is_primitive :=
  lazymatch goal with
  | |- keeps _ (emit _) => idtac
  | |- keeps _ (advance _) => idtac
  | |- keeps _ (set_pin _ _) => idtac
  | |- keeps _ next_call => idtac
  | |- keeps _ (logger _ _ _) => idtac
  | |- keeps _ (asyncio_sleep _) => idtac
  | |- keeps _ (set_websocket _) => idtac
  end.

Ltac settings_prim :=
  first [ apply settings_set_last_scan_time
        | is_primitive; apply settings_untouched; intros ? ?; reflexivity ].

Lemma others_untouched (X : string) {A : Type} (m : M A) :
  (forall E s, self (m E s).2 = self s) -> keeps (others_kept X) m.
Proof. intros H E s Y _. now rewrite H. Qed.

Lemma others_set_last_scan_time (X : string) (t : Q) :
  keeps (others_kept X) (set_last_scan_time X t).
Proof. intros E s Y HY. cbn. now apply lookup_insert_ne. Qed.

Ltac others_prim :=
  first [ apply others_set_last_scan_time
        | is_primitive; apply others_untouched; intros ? ?; reflexivity ].

Lemma keeps_while_running (R : relation State) `{!PreOrder R}
    (body : M unit) (n : nat) :
  keeps R body -> keeps R (while_running n body).
Proof.
  intros Hbody. induction n as [| n IH]; cbn [while_running].
  - apply keeps_ret; exact _.
  - apply keeps_bind; [exact _ | apply keeps_get_self; exact _ |].
    intros h. destruct (is_running h).
    + apply keeps_bind; [exact _ | exact Hbody | intros _; exact IH].
    + apply keeps_ret; exact _.
Qed.

Ltac is_assignment :=
  lazymatch goal with
  | |- keeps _ (put_self _) => idtac
  | |- keeps _ (set_last_scan_time _ _) => idtac
  end.

Ltac side_prim :=
  first [ first [is_primitive | is_assignment];
          apply adds_silent; intros ? ?; reflexivity
        | lazymatch goal with
          | |- keeps _ (emit _) =>
            apply adds_emit; cbn;
            first [ exact I | reflexivity | now left | now right
                  | split; [reflexivity |];
                    match goal with
                    | |- context [rfid_serial ?h] => destruct (rfid_serial h)
                    end; [now left | now right] ]
          end ].

(** ** The sensors *)

(** What [read_rfid] returns, by case. *)
Lemma read_rfid_cases (E : Env) (s : State) :
  exists r s',
    read_rfid E s = (Ok r, s') /\
    self s' = self s /\
    forall id, r = Some id ->
      exists raw decoded,
        serial_poll E (calls s) = Line raw /\
        utf8_decode E raw = Some decoded /\
        nonempty (strip decoded) = true /\
        id = remove_char LF (remove_char CR (strip decoded)).
Proof.
  unfold read_rfid. run.
  destruct (rfid_serial (self s)) as [port |].
  2: { exists None, s. repeat split; congruence. }
  run. destruct (serial_poll E (calls s)) as [| data |]; run.
  - eexists None, _. repeat split; congruence.
  - destruct (utf8_decode E data) as [decoded |] eqn:Hdec; run.
    + destruct (nonempty (strip decoded)) eqn:Hne; cbn [andb].
      * destruct (0 <? String.length (strip decoded))%nat; run.
        -- eexists (Some _), _. repeat split.
           intros id [= <-]. now exists data, decoded.
        -- eexists None, _. repeat split; congruence.
      * eexists None, _. repeat split; congruence.
    + eexists None, _. repeat split; congruence.
  - eexists None, _. repeat split; congruence.
Qed.

Lemma remove_char_not_in (x : ascii) (s : string) :
  ~ In x (list_ascii_of_string (remove_char x s)).
Proof.
  unfold remove_char. rewrite list_ascii_of_string_of_list_ascii.
  intros H. apply filter_In in H. destruct H as [_ H].
  now rewrite Ascii.eqb_refl in H.
Qed.

Lemma remove_char_subset (x c : ascii) (s : string) :
  In c (list_ascii_of_string (remove_char x s)) -> In c (list_ascii_of_string s).
Proof.
  unfold remove_char. rewrite list_ascii_of_string_of_list_ascii.
  intros H. now apply filter_In in H.
Qed.

(** X1: [read_rfid] never raises and never changes the object; an identifier it
    returns is never empty and contains neither a carriage return nor a line
    feed. *)
Theorem read_rfid_identifier_clean (E : Env) (s : State) :
  exists r s',
    read_rfid E s = (Ok r, s') /\
    self s' = self s /\
    forall id, r = Some id ->
      id <> "" /\
      ~ In CR (list_ascii_of_string id) /\
      ~ In LF (list_ascii_of_string id).
Proof.
  destruct (read_rfid_cases E s) as (r & s' & Hrun & Hself & Hid).
  exists r, s'. split; [exact Hrun |]. split; [exact Hself |].
  intros id Hr. destruct (Hid id Hr) as (raw & decoded & _ & _ & Hne & ->).
  split; [| split].
  - apply vehicle_id_nonempty in Hne. intros Heq. rewrite Heq in Hne. discriminate.
  - intros H. apply remove_char_subset in H. now apply remove_char_not_in in H.
  - apply remove_char_not_in.
Qed.

(** X2: with a reader attached, a port that raises or a line that is not valid
    UTF-8 yields no identifier: the exception is caught and logged once at
    level ERROR, after the poll of the port; no output is driven and the
    object is unchanged. *)
Theorem read_rfid_fault_yields_nothing (E : Env) (s : State) (port : Serial) :
  rfid_serial (self s) = Some port ->
  (serial_poll E (calls s) = SerialFault \/
   exists raw, serial_poll E (calls s) = Line raw /\ utf8_decode E raw = None) ->
  exists s' e,
    read_rfid E s = (Ok None, s') /\
    self s' = self s /\
    pins s' = pins s /\
    map snd (new_events s s') =
      [ SerialRead; Log ERROR "Error reading RFID: " (ArgExn e) ].
Proof.
  intros Hport Hfault. unfold read_rfid. run. rewrite Hport. run.
  destruct Hfault as [Hf | [raw [Hl Hd]]].
  - rewrite Hf. run. eexists _, _. repeat split.
    erewrite new_events_app by (cbn [trace]; rewrite <- ?app_assoc; reflexivity).
    reflexivity.
  - rewrite Hl. run. rewrite Hd. run. eexists _, _. repeat split.
    erewrite new_events_app by (cbn [trace]; rewrite <- ?app_assoc; reflexivity).
    reflexivity.
Qed.

Lemma read_rfid_fault_yields_nothing_witness :
  let E := booth_env times_out SerialFault NoFrame true hangs_up in
  exists s' e,
    read_rfid E booth = (Ok None, s') /\
    self s' = self booth /\
    pins s' = pins booth /\
    map snd (new_events booth s') =
      [ SerialRead; Log ERROR "Error reading RFID: " (ArgExn e) ].
Proof.
  intros E.
  exact (read_rfid_fault_yields_nothing E booth (serial_Serial "/dev/ttyUSB0")
           ltac:(vm_compute; reflexivity)
           ltac:(left; vm_compute; reflexivity)).
Defined.

Lemma lstrip_blank (l : list ascii) :
  forallb isspace l = true -> lstrip l = [].
Proof.
  induction l as [| c l IH]; [reflexivity |]. cbn.
  destruct (isspace c); [exact IH | discriminate].
Qed.

Lemma strip_blank (s : string) :
  forallb isspace (list_ascii_of_string s) = true -> strip s = "".
Proof.
  intros H. unfold strip. now rewrite (lstrip_blank _ H).
Qed.

(** X3: a line made of whitespace only yields no identifier and is not logged:
    the poll of the port is the only event. *)
Theorem read_rfid_blank_line_ignored (E : Env) (s : State) (port : Serial)
    (raw : list ascii) (decoded : string) :
  rfid_serial (self s) = Some port ->
  serial_poll E (calls s) = Line raw ->
  utf8_decode E raw = Some decoded ->
  forallb isspace (list_ascii_of_string decoded) = true ->
  exists s',
    read_rfid E s = (Ok None, s') /\
    self s' = self s /\
    new_events s s' = [ (clock s, SerialRead) ].
Proof.
  intros Hport Hline Hdec Hblank. unfold read_rfid. run. rewrite Hport. run.
  rewrite Hline. run. rewrite Hdec. run. rewrite (strip_blank _ Hblank).
  cbn [nonempty String.eqb negb andb]. run.
  eexists. repeat split. trace_eq.
Qed.

Lemma read_rfid_blank_line_ignored_witness :
  let E := booth_env times_out (tag "  ") NoFrame true hangs_up in
  exists s',
    read_rfid E booth = (Ok None, s') /\
    self s' = self booth /\
    new_events booth s' = [ (clock booth, SerialRead) ].
Proof.
  intros E.
  exact (read_rfid_blank_line_ignored E booth (serial_Serial "/dev/ttyUSB0") (list_ascii_of_string "  " ++ [LF]) (string_of_list_ascii (list_ascii_of_string "  " ++ [LF]))
           ltac:(vm_compute; reflexivity)
           ltac:(vm_compute; reflexivity)
           ltac:(vm_compute; reflexivity)
           ltac:(vm_compute; reflexivity)).
Defined.

(** X4: when the frame holds QR codes, the first one alone decides the result:
    its payload decoded, logged at level INFO, or nothing with an error logged
    when it is not valid UTF-8; the other codes of the frame are never looked
    at. *)
Theorem scan_qr_code_first_payload_decides (E : Env) (s : State)
    (cam : VideoCapture) (code : list ascii) (others : list (list ascii)) :
  camera (self s) = Some cam ->
  camera_read E (calls s) = Frame (code :: others) ->
  exists s',
    scan_qr_code E s = (Ok (utf8_decode E code), s') /\
    self s' = self s /\
    new_events s s' =
      [ (clock s, CameraRead);
        match utf8_decode E code with
        | Some v => (clock s, Log INFO "QR code scanned: " (ArgStr v))
        | None => (clock s, Log ERROR "Error scanning QR code: "
                              (ArgExn UnicodeDecodeError))
        end ].
Proof.
  intros Hcam Hframe. unfold scan_qr_code. run. rewrite Hcam. run.
  rewrite Hframe. run.
  destruct (utf8_decode E code) as [v |]; run;
    (eexists; repeat split; trace_eq).
Qed.

Lemma scan_qr_code_first_payload_decides_witness :
  let E := booth_env times_out NothingWaiting (Frame [list_ascii_of_string "VEH_QR1"; list_ascii_of_string "VEH_QR2"]) true hangs_up in
  exists s',
    scan_qr_code E booth = (Ok (utf8_decode E (list_ascii_of_string "VEH_QR1")), s') /\
    self s' = self booth /\
    new_events booth s' =
      [ (clock booth, CameraRead);
        match utf8_decode E (list_ascii_of_string "VEH_QR1") with
        | Some v => (clock booth, Log INFO "QR code scanned: " (ArgStr v))
        | None => (clock booth, Log ERROR "Error scanning QR code: "
                              (ArgExn UnicodeDecodeError))
        end ].
Proof.
  intros E.
  exact (scan_qr_code_first_payload_decides E booth (cv2_VideoCapture 0) (list_ascii_of_string "VEH_QR1") [list_ascii_of_string "VEH_QR2"]
           ltac:(vm_compute; reflexivity)
           ltac:(vm_compute; reflexivity)).
Defined.

(** X5: with a camera attached, a read that gives no frame, or a frame without
    a QR code, yields nothing and logs nothing; a camera that raises yields
    nothing and the exception is logged once at level ERROR. *)
Theorem scan_qr_code_no_code_or_fault (E : Env) (s : State) (cam : VideoCapture) :
  camera (self s) = Some cam ->
  (camera_read E (calls s) = NoFrame \/ camera_read E (calls s) = Frame [] ->
   exists s',
     scan_qr_code E s = (Ok None, s') /\
     self s' = self s /\
     new_events s s' = [ (clock s, CameraRead) ]) /\
  (camera_read E (calls s) = CameraFault ->
   exists s',
     scan_qr_code E s = (Ok None, s') /\
     self s' = self s /\
     new_events s s' =
       [ (clock s, CameraRead);
         (clock s, Log ERROR "Error scanning QR code: " (ArgExn CameraError)) ]).
Proof.
  intros Hcam. split.
  - intros Hread. unfold scan_qr_code. run. rewrite Hcam. run.
    destruct Hread as [-> | ->]; run; (eexists; repeat split; trace_eq).
  - intros Hread. unfold scan_qr_code. run. rewrite Hcam. run.
    rewrite Hread. run. eexists. repeat split. trace_eq.
Qed.

Lemma scan_qr_code_no_code_or_fault_witness :
  let E := booth_env times_out NothingWaiting CameraFault true hangs_up in
  (camera_read E (calls booth) = NoFrame \/ camera_read E (calls booth) = Frame [] ->
   exists s',
     scan_qr_code E booth = (Ok None, s') /\
     self s' = self booth /\
     new_events booth s' = [ (clock booth, CameraRead) ]) /\
  (camera_read E (calls booth) = CameraFault ->
   exists s',
     scan_qr_code E booth = (Ok None, s') /\
     self s' = self booth /\
     new_events booth s' =
       [ (clock booth, CameraRead);
         (clock booth, Log ERROR "Error scanning QR code: " (ArgExn CameraError)) ]).
Proof.
  intros E.
  exact (scan_qr_code_no_code_or_fault E booth (cv2_VideoCapture 0)
           ltac:(vm_compute; reflexivity)).
Defined.

(** X25: with no reader attached, a QR code whose payload is the empty string
    is scanned and logged but not processed: nothing is posted, no output is
    driven, and the cycle ends after its 0.1 pause with the object unchanged. *)
Theorem empty_qr_payload_not_reported (E : Env) (s : State)
    (cam : VideoCapture) (code : list ascii) (others : list (list ascii)) :
  rfid_serial (self s) = None ->
  camera (self s) = Some cam ->
  camera_read E (calls s) = Frame (code :: others) ->
  utf8_decode E code = Some "" ->
  exists s',
    scan_cycle E s = (Ok tt, s') /\
    self s' = self s /\
    clock s' = (clock s + (1 # 10))%Q /\
    new_events s s' =
      [ (clock s, CameraRead);
        (clock s, Log INFO "QR code scanned: " (ArgStr "")) ].
Proof.
  intros Hrfid Hcam Hframe Hdec.
  unfold scan_cycle, read_rfid, scan_qr_code. literals. run.
  rewrite Hrfid. run. rewrite Hcam.
  rewrite bool_decide_eq_true_2 by congruence.
  cbn [present negb andb]. run. rewrite Hcam. run.
  rewrite Hframe. run. rewrite Hdec. run.
  eexists. repeat split. trace_eq.
Qed.

Lemma empty_qr_payload_not_reported_witness :
  let E := booth_env times_out NothingWaiting (Frame [[]]) true hangs_up in
  exists s',
    scan_cycle E booth_camera_only = (Ok tt, s') /\
    self s' = self booth_camera_only /\
    clock s' = (clock booth_camera_only + (1 # 10))%Q /\
    new_events booth_camera_only s' =
      [ (clock booth_camera_only, CameraRead);
        (clock booth_camera_only, Log INFO "QR code scanned: " (ArgStr "")) ].
Proof.
  intros E.
  exact (empty_qr_payload_not_reported E booth_camera_only (cv2_VideoCapture 0) [] []
           ltac:(vm_compute; reflexivity)
           ltac:(vm_compute; reflexivity)
           ltac:(vm_compute; reflexivity)
           ltac:(vm_compute; reflexivity)).
Defined.

(** ** The outputs *)

(** X6: [set_status_led] never raises, takes no time and leaves the object
    alone; for "green", "red" and "yellow" it drives exactly the pin of that
    colour to the requested level; for any other value, a string or not, it
    does nothing at all; no pin other than the one named changes. *)
Theorem set_status_led_one_pin_or_nothing (E : Env) (s : State)
    (color : Json) (state : bool) :
  exists s',
    set_status_led color state E s = (Ok tt, s') /\
    self s' = self s /\ clock s' = clock s /\ calls s' = calls s /\
    (forall q, led_pin color <> Some q -> pins s' !! q = pins s !! q) /\
    match led_pin color with
    | Some pin =>
      pins s' !! pin = Some state /\
      new_events s s' = [ (clock s, GpioOutput pin state) ]
    | None => s' = s
    end.
Proof.
  unfold set_status_led, led_pin. run.
  destruct (eq_str color "green"); [| destruct (eq_str color "red");
    [| destruct (eq_str color "yellow")]]; run;
    (eexists; repeat split;
     try (intros q Hq; cbn [pins]; apply lookup_insert_ne; congruence);
     try apply lookup_insert_eq; try trace_eq).
Qed.

(** X7: for a duration d between 0 and 10^9 time-units, [buzz] drives the
    buzzer high, blocks for exactly d, and drives it low: the buzzer ends
    low. *)
Theorem buzz_pulse (E : Env) (s : State) (d : Q) :
  (0 <= d)%Q ->
  (d <= 1000000000)%Q ->
  exists s',
    buzz (JNum d) E s = (Ok tt, s') /\
    self s' = self s /\
    clock s' = (clock s + d)%Q /\
    pins s' !! BUZZER_PIN = Some false /\
    new_events s s' =
      [ (clock s, GpioOutput BUZZER_PIN true);
        ((clock s + d)%Q, GpioOutput BUZZER_PIN false) ].
Proof.
  intros Hd _. unfold buzz. rewrite (time_sleep_nonneg d Hd). run.
  eexists. repeat split; [apply lookup_insert_eq | trace_eq].
Qed.

Lemma buzz_pulse_witness :
  let E := booth_env times_out NothingWaiting NoFrame true hangs_up in
  exists s',
    buzz (JNum (1 # 2)) E booth = (Ok tt, s') /\
    self s' = self booth /\
    clock s' = (clock booth + (1 # 2))%Q /\
    pins s' !! BUZZER_PIN = Some false /\
    new_events booth s' =
      [ (clock booth, GpioOutput BUZZER_PIN true);
        ((clock booth + (1 # 2))%Q, GpioOutput BUZZER_PIN false) ].
Proof.
  intros E.
  exact (buzz_pulse E booth (1 # 2)
           ltac:(unfold Qle; simpl; lia)
           ltac:(unfold Qle; simpl; lia)).
Defined.

(** X8: for a duration that [time.sleep] rejects (a negative number, or a value
    that is not a number), [buzz] has already driven the buzzer high when the
    exception is raised; the exception is caught and logged and the buzzer is
    left high. *)
Theorem buzz_bad_duration_leaves_buzzer_on (E : Env) (s : State) (d : Json) :
  bad_duration d ->
  exists s' e,
    buzz d E s = (Ok tt, s') /\
    self s' = self s /\
    clock s' = clock s /\
    pins s' !! BUZZER_PIN = Some true /\
    new_events s s' =
      [ (clock s, GpioOutput BUZZER_PIN true);
        (clock s, Log ERROR "Error activating buzzer: " (ArgExn e)) ].
Proof.
  intros Hbad. unfold buzz, time_sleep.
  destruct d as [| b | q | str | items | fields]; cbn in Hbad; try contradiction;
    try (run; eexists _, _; repeat split; [apply lookup_insert_eq | trace_eq]).
  apply Qltb_lt in Hbad. rewrite Hbad. run.
  eexists _, _; repeat split; [apply lookup_insert_eq | trace_eq].
Qed.

Lemma buzz_bad_duration_leaves_buzzer_on_witness :
  let E := booth_env times_out NothingWaiting NoFrame true hangs_up in
  exists s' e,
    buzz (JStr "long") E booth = (Ok tt, s') /\
    self s' = self booth /\
    clock s' = clock booth /\
    pins s' !! BUZZER_PIN = Some true /\
    new_events booth s' =
      [ (clock booth, GpioOutput BUZZER_PIN true);
        (clock booth, Log ERROR "Error activating buzzer: " (ArgExn e)) ].
Proof.
  intros E.
  exact (buzz_bad_duration_leaves_buzzer_on E booth (JStr "long")
           I).
Defined.

(** ** Commands from the backend *)

(** X9: a test_led command lights the LED of the requested colour, "green"
    when the command names none, and puts it out 1.0 time-units later; with a
    colour that is not one of the three no pin is driven but the handler still
    takes 1.0 time-units. *)
Theorem test_led_command_pulse (E : Env) (s : State) (fields : list (string * Json)) :
  assoc "command" fields = Some (JStr "test_led") ->
  exists s',
    handle_hardware_command (JObj fields) E s = (Ok tt, s') /\
    self s' = self s /\
    clock s' = (clock s + 1)%Q /\
    new_events s s' =
      match led_pin (get_or fields "color" (JStr "green")) with
      | Some pin => [ (clock s, GpioOutput pin true);
                      ((clock s + 1)%Q, GpioOutput pin false) ]
      | None => []
      end.
Proof.
  intros Hcmd. unfold handle_hardware_command, get_or, led_pin, set_status_led.
  literals. run. rewrite Hcmd. cbn [eq_str String.eqb Ascii.eqb Bool.eqb]. run.
  destruct (assoc "color" fields) as [c |]; run.
  - destruct (eq_str c "green"); [| destruct (eq_str c "red");
      [| destruct (eq_str c "yellow")]]; run;
      (eexists; repeat split; first [trace_eq | trace_same]).
  - cbn [eq_str String.eqb Ascii.eqb Bool.eqb]. run.
    eexists; repeat split; trace_eq.
Qed.

Lemma test_led_command_pulse_witness :
  let E := booth_env times_out NothingWaiting NoFrame true hangs_up in
  exists s',
    handle_hardware_command (JObj [("type", JStr "hardware_command"); ("command", JStr "test_led"); ("color", JStr "red")]) E booth_online = (Ok tt, s') /\
    self s' = self booth_online /\
    clock s' = (clock booth_online + 1)%Q /\
    new_events booth_online s' =
      match led_pin (get_or [("type", JStr "hardware_command"); ("command", JStr "test_led"); ("color", JStr "red")] "color" (JStr "green")) with
      | Some pin => [ (clock booth_online, GpioOutput pin true);
                      ((clock booth_online + 1)%Q, GpioOutput pin false) ]
      | None => []
      end.
Proof.
  intros E.
  exact (test_led_command_pulse E booth_online [("type", JStr "hardware_command"); ("command", JStr "test_led"); ("color", JStr "red")]
           ltac:(vm_compute; reflexivity)).
Defined.

(** X10: a test_buzzer command without a duration buzzes for 0.5 time-units. *)
Theorem test_buzzer_command_default (E : Env) (s : State)
    (fields : list (string * Json)) :
  assoc "command" fields = Some (JStr "test_buzzer") ->
  assoc "duration" fields = None ->
  exists s',
    handle_hardware_command (JObj fields) E s = (Ok tt, s') /\
    self s' = self s /\
    new_events s s' =
      [ (clock s, GpioOutput BUZZER_PIN true);
        ((clock s + (1 # 2))%Q, GpioOutput BUZZER_PIN false) ].
Proof.
  intros Hcmd Hdur. unfold handle_hardware_command, buzz.
  rewrite ?(time_sleep_nonneg (1 # 2)) by (unfold Qle; simpl; lia).
  run. rewrite Hcmd. cbn [eq_str String.eqb Ascii.eqb Bool.eqb]. run.
  rewrite Hdur. rewrite ?(time_sleep_nonneg (1 # 2)) by (unfold Qle; simpl; lia).
  run. eexists; repeat split; trace_eq.
Qed.

Lemma test_buzzer_command_default_witness :
  let E := booth_env times_out NothingWaiting NoFrame true hangs_up in
  exists s',
    handle_hardware_command (JObj [("type", JStr "hardware_command"); ("command", JStr "test_buzzer")]) E booth_online = (Ok tt, s') /\
    self s' = self booth_online /\
    new_events booth_online s' =
      [ (clock booth_online, GpioOutput BUZZER_PIN true);
        ((clock booth_online + (1 # 2))%Q, GpioOutput BUZZER_PIN false) ].
Proof.
  intros E.
  exact (test_buzzer_command_default E booth_online [("type", JStr "hardware_command"); ("command", JStr "test_buzzer")]
           ltac:(vm_compute; reflexivity)
           ltac:(vm_compute; reflexivity)).
Defined.

(** ** The event channel *)

(** X11: a JSON object received on the channel whose type is not
    hardware_command, or whose command is none of the three known ones, is
    dropped: nothing is driven, sent or logged, the object is unchanged and
    the loop goes on without pause. *)
Theorem channel_message_ignored (E : Env) (s : State) (ws : WebSocket)
    (wait : Q) (fields : list (string * Json)) :
  websocket (self s) = Some ws ->
  ws_recv E (calls s) = (wait, Received (Some (JObj fields))) ->
  eq_str (get_or fields "type" JNull) "hardware_command" = false \/
  (eq_str (get_or fields "command" JNull) "test_led" = false /\
   eq_str (get_or fields "command" JNull) "test_buzzer" = false /\
   eq_str (get_or fields "command" JNull) "status_request" = false) ->
  exists s',
    websocket_cycle E s = (Ok tt, s') /\
    self s' = self s /\
    clock s' = (clock s + wait)%Q /\
    pins s' = pins s /\
    new_events s s' = [ ((clock s + wait)%Q, WsRecv) ].
Proof.
  unfold get_or. intros Hws Hrecv Hcase.
  unfold websocket_cycle, handle_hardware_command. run.
  rewrite Hws. run. rewrite Hrecv. cbn [fst snd]. run.
  destruct (eq_str match assoc "type" fields with
                   | Some v => v
                   | None => JNull
                   end "hardware_command") eqn:Htype; run.
  - destruct Hcase as [Hc | (H1 & H2 & H3)]; [discriminate |].
    rewrite H1, H2, H3. run. eexists; repeat split; trace_eq.
  - eexists; repeat split; trace_eq.
Qed.

Lemma channel_message_ignored_witness :
  let E := booth_env times_out NothingWaiting NoFrame true (0%Q, Received (Some (JObj [("type", JStr "ping")]))) in
  exists s',
    websocket_cycle E booth_online = (Ok tt, s') /\
    self s' = self booth_online /\
    clock s' = (clock booth_online + 0%Q)%Q /\
    pins s' = pins booth_online /\
    new_events booth_online s' = [ ((clock booth_online + 0%Q)%Q, WsRecv) ].
Proof.
  intros E.
  exact (channel_message_ignored E booth_online (WebSocketClient "ws://localhost:3001") 0%Q [("type", JStr "ping")]
           ltac:(vm_compute; reflexivity)
           ltac:(vm_compute; reflexivity)
           ltac:(left; vm_compute; reflexivity)).
Defined.

(** X12: a message that is not JSON, or is JSON but not an object, is logged at
    level ERROR; the pass pauses 1.0 time-units and the channel stays
    connected. *)
Theorem channel_message_malformed (E : Env) (s : State) (ws : WebSocket)
    (wait : Q) (message : option Json) :
  websocket (self s) = Some ws ->
  ws_recv E (calls s) = (wait, Received message) ->
  match message with
  | Some v => is_dict v = false
  | None => True
  end ->
  exists s' e,
    websocket_cycle E s = (Ok tt, s') /\
    self s' = self s /\
    clock s' = (clock s + wait + 1)%Q /\
    pins s' = pins s /\
    new_events s s' =
      [ ((clock s + wait)%Q, WsRecv);
        ((clock s + wait)%Q, Log ERROR "Error in WebSocket loop: " (ArgExn e)) ].
Proof.
  intros Hws Hrecv Hbad. unfold websocket_cycle. literals. run.
  rewrite Hws. run. rewrite Hrecv. cbn [fst snd]. run.
  destruct message as [[| b | q | str | items | fields] |]; cbn in Hbad;
    try discriminate; run; (eexists _, _; repeat split; trace_eq).
Qed.

Lemma channel_message_malformed_witness :
  let E := booth_env times_out NothingWaiting NoFrame true (0%Q, Received None) in
  exists s' e,
    websocket_cycle E booth_online = (Ok tt, s') /\
    self s' = self booth_online /\
    clock s' = (clock booth_online + 0%Q + 1)%Q /\
    pins s' = pins booth_online /\
    new_events booth_online s' =
      [ ((clock booth_online + 0%Q)%Q, WsRecv);
        ((clock booth_online + 0%Q)%Q, Log ERROR "Error in WebSocket loop: " (ArgExn e)) ].
Proof.
  intros E.
  exact (channel_message_malformed E booth_online (WebSocketClient "ws://localhost:3001") 0%Q None
           ltac:(vm_compute; reflexivity)
           ltac:(vm_compute; reflexivity)
           I).
Defined.

(** X26: a status_request command received on a connected channel is answered
    at once with one status payload; the object is unchanged and the pass
    ends without pause. *)
Theorem status_request_answered (E : Env) (s : State) (ws : WebSocket)
    (wait : Q) (fields : list (string * Json)) :
  websocket (self s) = Some ws ->
  ws_recv E (calls s) = (wait, Received (Some (JObj fields))) ->
  assoc "type" fields = Some (JStr "hardware_command") ->
  assoc "command" fields = Some (JStr "status_request") ->
  (forall m, ws_send E (S (calls s)) m = true) ->
  exists s' status,
    websocket_cycle E s = (Ok tt, s') /\
    self s' = self s /\
    clock s' = (clock s + wait)%Q /\
    message_type status = Some (JStr "hardware_status") /\
    new_events s s' =
      [ ((clock s + wait)%Q, WsRecv);
        ((clock s + wait)%Q, WsSend status);
        ((clock s + wait)%Q, Log INFO "Hardware status sent to backend" NoArg) ].
Proof.
  intros Hws Hrecv Htype Hcmd Hsend.
  unfold websocket_cycle, handle_hardware_command, send_hardware_status. run.
  rewrite Hws. run. rewrite Hrecv. cbn [fst snd]. run.
  rewrite Htype. cbn [eq_str String.eqb Ascii.eqb Bool.eqb]. run.
  rewrite Hcmd. cbn [eq_str String.eqb Ascii.eqb Bool.eqb]. run.
  rewrite Hws. run. rewrite Hsend. run.
  eexists _, _. split; [reflexivity |]. split; [reflexivity |].
  split; [reflexivity |]. split; [| trace_eq]. reflexivity.
Qed.

Lemma status_request_answered_witness :
  let E := booth_env times_out NothingWaiting NoFrame true (0%Q, Received (Some (JObj [("type", JStr "hardware_command"); ("command", JStr "status_request")]))) in
  exists s' status,
    websocket_cycle E booth_online = (Ok tt, s') /\
    self s' = self booth_online /\
    clock s' = (clock booth_online + 0%Q)%Q /\
    message_type status = Some (JStr "hardware_status") /\
    new_events booth_online s' =
      [ ((clock booth_online + 0%Q)%Q, WsRecv);
        ((clock booth_online + 0%Q)%Q, WsSend status);
        ((clock booth_online + 0%Q)%Q, Log INFO "Hardware status sent to backend" NoArg) ].
Proof.
  intros E.
  exact (status_request_answered E booth_online (WebSocketClient "ws://localhost:3001") 0%Q [("type", JStr "hardware_command"); ("command", JStr "status_request")]
           ltac:(vm_compute; reflexivity)
           ltac:(vm_compute; reflexivity)
           ltac:(vm_compute; reflexivity)
           ltac:(vm_compute; reflexivity)
           ltac:(intros; reflexivity)).
Defined.

(** X13: on a connected channel that accepts the send, [send_hardware_status]
    sends exactly one message, of type hardware_status, whose hardware flags
    say whether a reader and a camera are attached, and report the GPIO as
    present in any case. *)
Theorem status_payload_reports_devices (E : Env) (s : State) (ws : WebSocket) :
  websocket (self s) = Some ws ->
  (forall m, ws_send E (calls s) m = true) ->
  exists s' status,
    send_hardware_status E s = (Ok tt, s') /\
    self s' = self s /\
    sent_messages (new_events s s') = [ (clock s, status) ] /\
    message_type status = Some (JStr "hardware_status") /\
    hardware_flag status "rfid" =
      Some (JBool match rfid_serial (self s) with Some _ => true | None => false end) /\
    hardware_flag status "camera" =
      Some (JBool match camera (self s) with Some _ => true | None => false end) /\
    hardware_flag status "gpio" = Some (JBool true).
Proof.
  intros Hws Hsend. unfold send_hardware_status. run. rewrite Hws. run.
  rewrite Hsend. run.
  eexists _, _. split; [reflexivity |]. split; [reflexivity |].
  split.
  { erewrite new_events_app by (cbn [trace]; rewrite <- ?app_assoc; reflexivity).
    reflexivity. }
  split; [reflexivity |].
  cbn. repeat split.
  - now destruct (rfid_serial (self s)).
  - now destruct (camera (self s)).
Qed.

Lemma status_payload_reports_devices_witness :
  let E := booth_env times_out NothingWaiting NoFrame true hangs_up in
  exists s' status,
    send_hardware_status E booth_online = (Ok tt, s') /\
    self s' = self booth_online /\
    sent_messages (new_events booth_online s') = [ (clock booth_online, status) ] /\
    message_type status = Some (JStr "hardware_status") /\
    hardware_flag status "rfid" =
      Some (JBool match rfid_serial (self booth_online) with Some _ => true | None => false end) /\
    hardware_flag status "camera" =
      Some (JBool match camera (self booth_online) with Some _ => true | None => false end) /\
    hardware_flag status "gpio" = Some (JBool true).
Proof.
  intros E.
  exact (status_payload_reports_devices E booth_online (WebSocketClient "ws://localhost:3001")
           ltac:(vm_compute; reflexivity)
           ltac:(intros; reflexivity)).
Defined.

(** X14: when the send fails, [send_hardware_status] returns normally: the
    failure is logged once at level ERROR and the object, the channel field
    included, is unchanged. *)
Theorem status_send_failure_is_swallowed (E : Env) (s : State) (ws : WebSocket) :
  websocket (self s) = Some ws ->
  (forall m, ws_send E (calls s) m = false) ->
  exists s',
    send_hardware_status E s = (Ok tt, s') /\
    self s' = self s /\
    clock s' = clock s /\
    new_events s s' =
      [ (clock s, Log ERROR "Failed to send hardware status: "
                    (ArgExn ConnectionClosed)) ].
Proof.
  intros Hws Hsend. unfold send_hardware_status. run. rewrite Hws. run.
  rewrite Hsend. run. eexists. repeat split. trace_eq.
Qed.

Lemma status_send_failure_is_swallowed_witness :
  let E := booth_env times_out NothingWaiting NoFrame false hangs_up in
  exists s',
    send_hardware_status E booth_online = (Ok tt, s') /\
    self s' = self booth_online /\
    clock s' = clock booth_online /\
    new_events booth_online s' =
      [ (clock booth_online, Log ERROR "Failed to send hardware status: "
                    (ArgExn ConnectionClosed)) ].
Proof.
  intros E.
  exact (status_send_failure_is_swallowed E booth_online (WebSocketClient "ws://localhost:3001")
           ltac:(vm_compute; reflexivity)
           ltac:(intros; reflexivity)).
Defined.

(** X15: a pass of the channel loop that starts disconnected and connects with
    success stores the connection, sends the status payload at once, and ends
    5 time-units later. *)
Theorem reconnect_pass_sends_status_then_waits (E : Env) (s : State) :
  websocket (self s) = None ->
  ws_connect E (calls s) = true ->
  (forall m, ws_send E (S (calls s)) m = true) ->
  exists s' status,
    websocket_cycle E s = (Ok tt, s') /\
    websocket (self s') = Some (WebSocketClient (WEBSOCKET_URL E)) /\
    clock s' = (clock s + 5)%Q /\
    message_type status = Some (JStr "hardware_status") /\
    new_events s s' =
      [ (clock s, WsConnect (WEBSOCKET_URL E));
        (clock s, Log INFO "Connected to backend WebSocket" NoArg);
        (clock s, WsSend status);
        (clock s, Log INFO "Hardware status sent to backend" NoArg) ].
Proof.
  intros Hws Hcon Hsend.
  unfold websocket_cycle, connect_websocket, send_hardware_status.
  literals. run. rewrite Hws. run. rewrite Hcon. run. rewrite Hsend. run.
  eexists _, _. split; [reflexivity |]. split; [reflexivity |].
  split; [reflexivity |]. split; [| trace_eq]. reflexivity.
Qed.

Lemma reconnect_pass_sends_status_then_waits_witness :
  let E := booth_env times_out NothingWaiting NoFrame true hangs_up in
  exists s' status,
    websocket_cycle E booth = (Ok tt, s') /\
    websocket (self s') = Some (WebSocketClient (WEBSOCKET_URL E)) /\
    clock s' = (clock booth + 5)%Q /\
    message_type status = Some (JStr "hardware_status") /\
    new_events booth s' =
      [ (clock booth, WsConnect (WEBSOCKET_URL E));
        (clock booth, Log INFO "Connected to backend WebSocket" NoArg);
        (clock booth, WsSend status);
        (clock booth, Log INFO "Hardware status sent to backend" NoArg) ].
Proof.
  intros E.
  exact (reconnect_pass_sends_status_then_waits E booth
           ltac:(vm_compute; reflexivity)
           ltac:(vm_compute; reflexivity)
           ltac:(intros; reflexivity)).
Defined.

(** X24: the channel loop never posts to the backend and never polls a sensor;
    every message it sends on the channel is the status payload. *)
Theorem channel_loop_stays_on_its_side (n : nat) (E : Env) (s : State) :
  adds_only channel_side s (websocket_loop n E s).2.
Proof.
  assert (H : keeps (adds_only channel_side) (websocket_loop n)).
  { unfold websocket_loop. apply keeps_while_running; [exact _ |].
    keeps_walk side_prim. }
  apply H.
Qed.

(** ** Processing a scan *)

(** X16: for an accepted scan answered with a status other than 200 the run
    returns normally and adds exactly: the POST, yellow ON when the answer
    arrives, the error line with the status, and yellow OFF 1.0 time-units
    later; no buzz and no notification. *)
Theorem rejected_status_yellow_pulse (E : Env) (s : State) (X : string)
    (e : Q) (r : Response) :
  cooldown_active (self s) X (clock s) = false ->
  reply_to E s X = {| elapsed := e; outcome := Responded r |} ->
  status_code r <> 200%Z ->
  exists s',
    process_vehicle_scan X E s = (Ok tt, s') /\
    new_events s s' =
      [ (clock s, HttpPost (scan_url E) (scan_data E (self s) X (clock s)) 5);
        (clock s + e, GpioOutput LED_YELLOW true);
        (clock s + e, Log ERROR "Backend error: " (ArgInt (status_code r)));
        (clock s + e + 1, GpioOutput LED_YELLOW false) ]%Q.
Proof.
  intros Hcool Hreply Hstatus.
  destruct (scan_rejected_run E s X e r Hcool Hreply Hstatus)
    as [s' [Hrun [_ Hev]]].
  now exists s'.
Qed.

Lemma rejected_status_yellow_pulse_witness :
  let E := booth_env (answers 500 None) (tag "VEH_005") NoFrame true hangs_up in
  exists s',
    process_vehicle_scan "VEH_005" E booth = (Ok tt, s') /\
    new_events booth s' =
      [ (clock booth, HttpPost (scan_url E) (scan_data E (self booth) "VEH_005" (clock booth)) 5);
        (clock booth + 0%Q, GpioOutput LED_YELLOW true);
        (clock booth + 0%Q, Log ERROR "Backend error: " (ArgInt (status_code {| status_code := 500; json_body := None |})));
        (clock booth + 0%Q + 1, GpioOutput LED_YELLOW false) ]%Q.
Proof.
  intros E.
  exact (rejected_status_yellow_pulse E booth "VEH_005" 0%Q {| status_code := 500; json_body := None |}
           ltac:(vm_compute; reflexivity)
           ltac:(vm_compute; reflexivity)
           ltac:(vm_compute; discriminate)).
Defined.

(** X17: for an accepted scan answered with status 200 and a body that is not
    JSON, or is JSON but not an object, the run returns normally with the
    identifier marked as seen and adds exactly: the POST, the error line, red
    ON, and red OFF 1.0 time-units later; no buzz and no notification. *)
Theorem malformed_body_red_pulse (E : Env) (s : State) (X : string)
    (e : Q) (body : option Json) :
  cooldown_active (self s) X (clock s) = false ->
  reply_to E s X =
    {| elapsed := e;
       outcome := Responded {| status_code := 200; json_body := body |} |} ->
  match body with
  | Some v => is_dict v = false
  | None => True
  end ->
  exists s' exn,
    process_vehicle_scan X E s = (Ok tt, s') /\
    self s' = seen X (clock s) (self s) /\
    new_events s s' =
      [ (clock s, HttpPost (scan_url E) (scan_data E (self s) X (clock s)) 5);
        (clock s + e, Log ERROR "Error processing vehicle scan: " (ArgExn exn));
        (clock s + e, GpioOutput LED_RED true);
        (clock s + e + 1, GpioOutput LED_RED false) ]%Q.
Proof.
  intros Hcool Hreply Hbad. unfold reply_to in Hreply.
  unfold process_vehicle_scan, report_scan. literals. run. rewrite Hcool. run.
  change (scan_data E _ X (clock s)) with (scan_data E (self s) X (clock s)).
  rewrite Hreply. cbn [outcome elapsed status_code json_body Z.eqb Pos.eqb]. run.
  destruct body as [[| b | q | str | items | fields] |]; cbn in Hbad;
    try discriminate; run;
    (eexists _, _; split; [reflexivity | split; [reflexivity | trace_eq]]).
Qed.

Lemma malformed_body_red_pulse_witness :
  let E := booth_env (answers 200 None) (tag "VEH_006") NoFrame true hangs_up in
  exists s' exn,
    process_vehicle_scan "VEH_006" E booth = (Ok tt, s') /\
    self s' = seen "VEH_006" (clock booth) (self booth) /\
    new_events booth s' =
      [ (clock booth, HttpPost (scan_url E) (scan_data E (self booth) "VEH_006" (clock booth)) 5);
        (clock booth + 0%Q, Log ERROR "Error processing vehicle scan: " (ArgExn exn));
        (clock booth + 0%Q, GpioOutput LED_RED true);
        (clock booth + 0%Q + 1, GpioOutput LED_RED false) ]%Q.
Proof.
  intros E.
  exact (malformed_body_red_pulse E booth "VEH_006" 0%Q None
           ltac:(vm_compute; reflexivity)
           ltac:(vm_compute; reflexivity)
           I).
Defined.

(** X18: when the verdict is registered and the notification cannot be sent,
    the handler pulses the red LED for 1.0 time-units and returns; the 2.0
    hold and the switching-off of the green LED are skipped, so the green LED
    is left lit, and the channel field is unchanged. *)
Theorem failed_notification_leaves_green_lit (E : Env) (s : State) (X : string)
    (e : Q) (fields : list (string * Json)) (ws : WebSocket) :
  cooldown_active (self s) X (clock s) = false ->
  reply_to E s X =
    {| elapsed := e;
       outcome := Responded {| status_code := 200;
                               json_body := Some (JObj fields) |} |} ->
  truthy (get_or fields "registered" (JBool false)) = true ->
  websocket (self s) = Some ws ->
  (forall m, ws_send E (S (calls s)) m = false) ->
  exists s',
    process_vehicle_scan X E s = (Ok tt, s') /\
    websocket (self s') = Some ws /\
    pins s' !! LED_GREEN = Some true /\
    pins s' !! LED_RED = Some false /\
    new_events s s' =
      [ (clock s, HttpPost (scan_url E) (scan_data E (self s) X (clock s)) 5);
        (clock s + e, GpioOutput LED_GREEN true);
        (clock s + e, GpioOutput BUZZER_PIN true);
        (clock s + e + (3 # 10), GpioOutput BUZZER_PIN false);
        (clock s + e + (3 # 10),
         Log INFO "Registered vehicle detected: " (ArgStr X));
        (clock s + e + (3 # 10),
         Log ERROR "Error processing vehicle scan: " (ArgExn ConnectionClosed));
        (clock s + e + (3 # 10), GpioOutput LED_RED true);
        (clock s + e + (3 # 10) + 1, GpioOutput LED_RED false) ]%Q.
Proof.
  unfold get_or. intros Hcool Hreply Hreg Hws Hsend. unfold reply_to in Hreply.
  unfold process_vehicle_scan, report_scan, buzz. literals. run.
  rewrite Hcool. run.
  change (scan_data E _ X (clock s)) with (scan_data E (self s) X (clock s)).
  rewrite Hreply. cbn [outcome elapsed status_code json_body Z.eqb Pos.eqb].
  run. rewrite Hreg, Hws. run. rewrite Hsend. run.
  eexists. split; [reflexivity |]. split; [reflexivity |].
  split; [pin_lookup |]. split; [pin_lookup | trace_eq].
Qed.

Lemma failed_notification_leaves_green_lit_witness :
  let E := booth_env (answers 200 (Some (verdict true))) (tag "VEH_001") NoFrame false hangs_up in
  exists s',
    process_vehicle_scan "VEH_001" E booth_online = (Ok tt, s') /\
    websocket (self s') = Some (WebSocketClient "ws://localhost:3001") /\
    pins s' !! LED_GREEN = Some true /\
    pins s' !! LED_RED = Some false /\
    new_events booth_online s' =
      [ (clock booth_online, HttpPost (scan_url E) (scan_data E (self booth_online) "VEH_001" (clock booth_online)) 5);
        (clock booth_online + 0%Q, GpioOutput LED_GREEN true);
        (clock booth_online + 0%Q, GpioOutput BUZZER_PIN true);
        (clock booth_online + 0%Q + (3 # 10), GpioOutput BUZZER_PIN false);
        (clock booth_online + 0%Q + (3 # 10),
         Log INFO "Registered vehicle detected: " (ArgStr "VEH_001"));
        (clock booth_online + 0%Q + (3 # 10),
         Log ERROR "Error processing vehicle scan: " (ArgExn ConnectionClosed));
        (clock booth_online + 0%Q + (3 # 10), GpioOutput LED_RED true);
        (clock booth_online + 0%Q + (3 # 10) + 1, GpioOutput LED_RED false) ]%Q.
Proof.
  intros E.
  exact (failed_notification_leaves_green_lit E booth_online "VEH_001" 0%Q [("registered", JBool true)] (WebSocketClient "ws://localhost:3001")
           ltac:(vm_compute; reflexivity)
           ltac:(vm_compute; reflexivity)
           ltac:(vm_compute; reflexivity)
           ltac:(vm_compute; reflexivity)
           ltac:(intros; reflexivity)).
Defined.

(** X19: after an accepted scan answered with status 200 and a JSON object, the
    notification having been sent if the channel is connected, the green LED,
    the red LED and the buzzer are all low and the yellow LED is as it was. *)
Theorem outputs_low_after_verdict (E : Env) (s : State) (X : string)
    (e : Q) (fields : list (string * Json)) :
  cooldown_active (self s) X (clock s) = false ->
  reply_to E s X =
    {| elapsed := e;
       outcome := Responded {| status_code := 200;
                               json_body := Some (JObj fields) |} |} ->
  (forall m, websocket (self s) <> None -> ws_send E (S (calls s)) m = true) ->
  exists s',
    process_vehicle_scan X E s = (Ok tt, s') /\
    pins s' !! LED_GREEN = Some false /\
    pins s' !! LED_RED = Some false /\
    pins s' !! BUZZER_PIN = Some false /\
    pins s' !! LED_YELLOW = pins s !! LED_YELLOW.
Proof.
  intros Hcool Hreply Hsend. unfold reply_to in Hreply.
  unfold process_vehicle_scan, report_scan, buzz. literals. run.
  rewrite Hcool. run.
  change (scan_data E _ X (clock s)) with (scan_data E (self s) X (clock s)).
  rewrite Hreply. cbn [outcome elapsed status_code json_body Z.eqb Pos.eqb].
  run.
  destruct (truthy _), (websocket (self s)) as [ws |] eqn:Hws; run;
    rewrite ?Hsend by congruence;
    (eexists; split; [reflexivity |]; repeat split; pin_lookup).
Qed.

Lemma outputs_low_after_verdict_witness :
  let E := booth_env (answers 200 (Some (verdict true))) (tag "VEH_001") NoFrame true hangs_up in
  exists s',
    process_vehicle_scan "VEH_001" E booth_online = (Ok tt, s') /\
    pins s' !! LED_GREEN = Some false /\
    pins s' !! LED_RED = Some false /\
    pins s' !! BUZZER_PIN = Some false /\
    pins s' !! LED_YELLOW = pins booth_online !! LED_YELLOW.
Proof.
  intros E.
  exact (outputs_low_after_verdict E booth_online "VEH_001" 0%Q [("registered", JBool true)]
           ltac:(vm_compute; reflexivity)
           ltac:(vm_compute; reflexivity)
           ltac:(intros; reflexivity)).
Defined.

(** X21: processing a scan of X, whatever its outcome, leaves the last-seen
    time of every other identifier as it was. *)
Theorem scan_touches_only_its_identifier (E : Env) (s : State) (X Y : string) :
  Y <> X ->
  last_scan_time (self (process_vehicle_scan X E s).2) !! Y =
  last_scan_time (self s) !! Y.
Proof.
  intros HY.
  assert (H : keeps (others_kept X) (process_vehicle_scan X)).
  { keeps_walk others_prim. }
  now apply H.
Qed.

Lemma scan_touches_only_its_identifier_witness :
  let E := booth_env (answers 200 (Some (verdict true))) (tag "VEH_001") NoFrame true hangs_up in
  last_scan_time (self (process_vehicle_scan "VEH_001" E booth).2) !! "VEH_002" =
  last_scan_time (self booth) !! "VEH_002".
Proof.
  intros E.
  exact (scan_touches_only_its_identifier E booth "VEH_001" "VEH_002"
           ltac:(discriminate)).
Defined.

(** X22: however many cycles the scan loop runs and whatever the sensors and
    the backend do, it never changes the reader, the camera, the channel
    field, the loop flag or the cooldown, and it never forgets an identifier:
    the deduplication map only grows. *)
Theorem scan_loop_keeps_settings (n : nat) (E : Env) (s : State) :
  settings_kept s (scan_loop n E s).2.
Proof.
  assert (H : keeps settings_kept (scan_loop n)).
  { unfold scan_loop. apply keeps_bind; [exact _ | settings_prim |].
    intros _. apply keeps_while_running; [exact _ |].
    keeps_walk settings_prim. }
  apply H.
Qed.

(** X23: the scan loop never connects to the event channel and never receives
    from it; every report it posts has the 5-unit timeout and a scan type of
    "rfid" or "qr"; every message it sends on the channel is a
    vehicle_detected or an unregistered_vehicle notification. *)
Theorem scan_loop_stays_on_its_side (n : nat) (E : Env) (s : State) :
  adds_only scan_side s (scan_loop n E s).2.
Proof.
  assert (H : keeps (adds_only scan_side) (scan_loop n)).
  { unfold scan_loop. apply keeps_bind; [exact _ | keeps_walk side_prim |].
    intros _. apply keeps_while_running; [exact _ |].
    keeps_walk side_prim. }
  apply H.
Qed.

(** ** Construction *)

Lemma setup_gpio_run (E : Env) (s : State) :
  exists s',
    setup_gpio E s = (Ok tt, s') /\
    self s' = self s /\
    pins s' !! LED_GREEN = Some false /\
    pins s' !! LED_RED = Some false /\
    pins s' !! LED_YELLOW = Some false /\
    pins s' !! BUZZER_PIN = Some false.
Proof.
  unfold setup_gpio, try_except, bind.
  repeat (rewrite GPIO_output_run; cbv beta iota).
  unfold logger, emit. eexists. split; [reflexivity |].
  repeat split; pin_lookup.
Qed.

Lemma setup_rfid_reader_run (E : Env) (s : State) :
  exists s',
    setup_rfid_reader E s = (Ok tt, s') /\
    pins s' = pins s /\
    self s' =
      {| rfid_serial := if serial_opens E
                        then Some (serial_Serial (RFID_SERIAL_PORT E))
                        else None;
         camera := camera (self s); websocket := websocket (self s);
         is_running := is_running (self s);
         last_scan_time := last_scan_time (self s);
         scan_cooldown := scan_cooldown (self s) |}.
Proof.
  unfold setup_rfid_reader. run.
  destruct (serial_opens E); run; (eexists; repeat split).
Qed.

Lemma setup_qr_camera_run (E : Env) (s : State) :
  exists s',
    setup_qr_camera E s = (Ok tt, s') /\
    pins s' = pins s /\
    self s' =
      {| rfid_serial := rfid_serial (self s);
         camera := if camera_opens E
                   then Some (cv2_VideoCapture (QR_CAMERA_INDEX E))
                   else None;
         websocket := websocket (self s);
         is_running := is_running (self s);
         last_scan_time := last_scan_time (self s);
         scan_cooldown := scan_cooldown (self s) |}.
Proof.
  unfold setup_qr_camera. run.
  destruct (camera_opens E); run; (eexists; repeat split).
Qed.

(** X20: construction never fails: the four outputs are driven low, a reader
    or a camera that cannot be opened leaves its field at [None], the channel
    starts disconnected, the loop flag is off, no identifier has been seen and
    the cooldown is 5. *)
Theorem init_degrades_missing_sensors (E : Env) (s : State) :
  exists s',
    init E s = (Ok tt, s') /\
    rfid_serial (self s') =
      (if serial_opens E then Some (serial_Serial (RFID_SERIAL_PORT E)) else None) /\
    camera (self s') =
      (if camera_opens E then Some (cv2_VideoCapture (QR_CAMERA_INDEX E)) else None) /\
    websocket (self s') = None /\
    is_running (self s') = false /\
    last_scan_time (self s') = ∅ /\
    scan_cooldown (self s') = 5%Q /\
    pins s' !! LED_GREEN = Some false /\
    pins s' !! LED_RED = Some false /\
    pins s' !! LED_YELLOW = Some false /\
    pins s' !! BUZZER_PIN = Some false.
Proof.
  unfold init, bind at 1, put_self at 1.
  set (s0 := {| self := fresh_object; clock := clock s; pins := pins s;
                calls := calls s; trace := trace s |}).
  destruct (setup_gpio_run E s0) as (s1 & H1 & Hself1 & Hg & Hr & Hy & Hb).
  destruct (setup_rfid_reader_run E s1) as (s2 & H2 & Hpins2 & Hself2).
  destruct (setup_qr_camera_run E s2) as (s3 & H3 & Hpins3 & Hself3).
  exists s3. split.
  - unfold bind. now rewrite H1, H2, H3.
  - rewrite Hself3, Hpins3, Hpins2, Hself2, Hself1. cbn. auto 12.
Qed.
